(** * planet / x/blog/keeper/ibc_post.go

    A shallow embedding of the four IBC packet callbacks of the blog
    module's keeper (TransmitIbcPostPacket, OnRecvIbcPostPacket,
    OnAcknowledgementIbcPostPacket, OnTimeoutIbcPostPacket) and the
    properties of them that the specification states.

    Go strings are byte strings: [string].  A [uint64] is an [N]; the
    callbacks do no arithmetic on one.  The [sdk.Context] that every
    callback receives is the state that is threaded through: the three
    stores of the module and the state of the IBC core and capability
    modules behind the keepers the module is wired to. *)

From Stdlib Require Import String Ascii List Arith NArith Bool Lia.
From Stdlib Require Import Decimal DecimalString DecimalN.
Import ListNotations.

Local Open Scope string_scope.
Local Open Scope list_scope.

Set Implicit Arguments.

(** ** Errors *)

(** A Go [error] value, as this file makes them: [errors.New],
    a registered (sentinel) error of the SDK, and [sdkerrors.Wrap] /
    [sdkerrors.Wrapf] around a cause. *)
Inductive error : Type :=
| errors_New (text : string)
| Registered (codespace : string) (code : N) (description : string)
| Wrap (cause : error) (description : string).

(** [err.Error()]: a wrapped error prints its description, then its cause. *)
Fixpoint Error (e : error) : string :=
  match e with
  | errors_New text => text
  | Registered _ _ description => description
  | Wrap cause description => description ++ ": " ++ Error cause
  end.

(** ** Data carried by the callbacks *)

Definition bytes := list Byte.byte.

(** [clienttypes.Height] *)
Record Height : Type := mkHeight {
  RevisionNumber : N;
  RevisionHeight : N
}.

(** [channeltypes.Packet] *)
Record Packet : Type := mkPacket {
  Sequence : N;
  SourcePort : string;
  SourceChannel : string;
  DestinationPort : string;
  DestinationChannel : string;
  Data : bytes;
  TimeoutHeight : Height;
  TimeoutTimestamp : N
}.

(** [channeltypes.NewPacket], with the argument order of the call. *)
Definition NewPacket (data : bytes) (sequence : N)
    (sourcePort sourceChannel destinationPort destinationChannel : string)
    (timeoutHeight : Height) (timeoutTimestamp : N) : Packet :=
  {| Sequence := sequence;
     SourcePort := sourcePort;
     SourceChannel := sourceChannel;
     DestinationPort := destinationPort;
     DestinationChannel := destinationChannel;
     Data := data;
     TimeoutHeight := timeoutHeight;
     TimeoutTimestamp := timeoutTimestamp |}.

(** [channeltypes.Counterparty] and the part of [channeltypes.Channel]
    that [sourceChannelEnd.GetCounterparty()] reads. *)
Record Counterparty : Type := mkCounterparty {
  GetPortID : string;
  GetChannelID : string
}.

Record Channel : Type := mkChannel {
  GetCounterparty : Counterparty
}.

(** [capabilitytypes.Capability]: a token, compared by its index. *)
Record Capability : Type := mkCapability {
  Index : N
}.

(** [channeltypes.Acknowledgement]: the [Response] field is one of the two
    generated variants, or unset ([nil]), which is what reaches the
    [default] branch of a type switch. *)
Inductive isAcknowledgement_Response : Type :=
| Acknowledgement_Error (Error_ : string)
| Acknowledgement_Result (Result : bytes)
| Response_nil.

Record Acknowledgement : Type := mkAcknowledgement {
  Response : isAcknowledgement_Response
}.

(** [types.IbcPostPacketData] *)
Record IbcPostPacketData : Type := mkIbcPostPacketData {
  Title : string;
  Content : string;
  Creator : string
}.

(** [types.IbcPostPacketAck] *)
Record IbcPostPacketAck : Type := mkIbcPostPacketAck {
  PostID : string
}.

(** The zero value of the named result [packetAck]. *)
Definition IbcPostPacketAck_zero : IbcPostPacketAck := {| PostID := "" |}.

(** The three records, with the fields the composite literals of the
    callbacks set. *)
Record Post : Type := mkPost {
  Post_Creator : string;
  Post_Title : string;
  Post_Content : string
}.

Record SentPost : Type := mkSentPost {
  SentPost_Creator : string;
  SentPost_PostID : string;
  SentPost_Title : string;
  SentPost_Chain : string
}.

Record TimedoutPost : Type := mkTimedoutPost {
  TimedoutPost_Title : string;
  TimedoutPost_Creator : string;
  TimedoutPost_Chain : string
}.

(** ** Stores *)

(** The ids of the post store are [uint64]: ibc_post.go formats the id
    that [AppendPost] returns with [strconv.FormatUint]. *)
Definition uint64_modulus : N := 2 ^ 64.

(** [id + 1] on a [uint64], with its wrap-around. *)
Definition uint64_succ (id : N) : N := (N.succ id) mod uint64_modulus.

(** Modelled from the spec: the stores behind [AppendPost],
    [AppendSentPost] and [AppendTimedoutPost] (their code is not in
    ibc_post.go).  A store is an append-only log with monotonically
    increasing keys: an entry pairs the store-assigned id with the record,
    and [nextId] is the id the next append hands out. *)
Record Store (R : Type) : Type := mkStore {
  nextId : N;
  entries : list (N * R)
}.

Arguments mkStore {R} _ _.
Arguments nextId {R} _.
Arguments entries {R} _.

Definition Store_empty {R : Type} : Store R :=
  {| nextId := 0%N; entries := [] |}.

(** Modelled from the spec: the append of a store (AppendPost and its two
    siblings are not in ibc_post.go).  It adds one entry under the next
    id at the end of the log and returns that id; the ids go up by one, as
    [uint64] numbers do, so that they are fresh as long as the counter has
    not gone round. *)
Definition Store_append {R : Type} (s : Store R) (r : R) : Store R * N :=
  let id := nextId s in
  ({| nextId := uint64_succ id; entries := entries s ++ [(id, r)] |}, id).

(** The number of records in a store. *)
Definition Store_size {R : Type} (s : Store R) : nat :=
  List.length (entries s).

(** The ids under which a store holds its records, in the order of the
    log. *)
Definition Store_keys {R : Type} (s : Store R) : list N :=
  map fst (entries s).

(** ** The context *)

(** What a callback reaches through its [sdk.Context]: the state [W] of
    the modules behind the keepers (IBC core, capabilities), which only
    those keepers read and write, and the module's own three stores. *)
Record Context (W : Type) : Type := mkContext {
  world : W;
  posts : Store Post;
  sentPosts : Store SentPost;
  timedoutPosts : Store TimedoutPost
}.

Arguments mkContext {W} _ _ _ _.
Arguments world {W} _.
Arguments posts {W} _.
Arguments sentPosts {W} _.
Arguments timedoutPosts {W} _.

(** Modelled from the spec: [k.AppendPost], [k.AppendSentPost] and
    [k.AppendTimedoutPost] (not in ibc_post.go) append to the store of
    their record and leave the rest of the context as it is; the id of
    the new entry is returned. *)
Definition AppendPost {W : Type} (ctx : Context W) (post : Post)
  : Context W * N :=
  let '(store, id) := Store_append (posts ctx) post in
  ({| world := world ctx; posts := store;
      sentPosts := sentPosts ctx; timedoutPosts := timedoutPosts ctx |}, id).

Definition AppendSentPost {W : Type} (ctx : Context W) (sentPost : SentPost)
  : Context W * N :=
  let '(store, id) := Store_append (sentPosts ctx) sentPost in
  ({| world := world ctx; posts := posts ctx;
      sentPosts := store; timedoutPosts := timedoutPosts ctx |}, id).

Definition AppendTimedoutPost {W : Type} (ctx : Context W)
    (timedoutPost : TimedoutPost) : Context W * N :=
  let '(store, id) := Store_append (timedoutPosts ctx) timedoutPost in
  ({| world := world ctx; posts := posts ctx;
      sentPosts := sentPosts ctx; timedoutPosts := store |}, id).

(** ** The keepers the module is wired to *)

Module types.

(** The channel keeper of IBC core, as the module expects it. *)
Record ChannelKeeper (W : Type) : Type := mkChannelKeeper {
  GetChannel : W -> string -> string -> option Channel;
  GetNextSequenceSend : W -> string -> string -> option N;
  SendPacket : W -> Capability -> Packet -> W * option error
}.

(** The scoped capability keeper of the module. *)
Record ScopedKeeper (W : Type) : Type := mkScopedKeeper {
  GetCapability : W -> string -> option Capability
}.

End types.

Record Keeper (W : Type) : Type := mkKeeper {
  ChannelKeeper : types.ChannelKeeper W;
  ScopedKeeper : types.ScopedKeeper W
}.

(** ** Library functions *)

(** Go's [+] on strings associates to the left. *)
Notation "a +s b" := (String.append a b) (at level 50, left associativity).

(** [strconv.FormatUint(i, 10)] *)
Definition FormatUint_10 (i : N) : string :=
  NilEmpty.string_of_uint (N.to_uint i).

(** The number that a string of decimal digits reads as, to read a
    formatted id back.  It is not Go's [strconv.ParseUint]: there is no
    range check here, and the empty string reads as 0. *)
Definition ParseUint_10 (s : string) : option N :=
  option_map N.of_uint (NilEmpty.uint_of_string s).

(** ** The callbacks *)

(** The two errors that the acknowledgement callback makes with
    [errors.New], under the names the specification gives them. *)
Definition AckDecodeError : error :=
  errors_New "cannot unmarshal acknowledgment".

Definition UnsupportedAckFormat : error :=
  errors_New
    "the counter-party module does not implement the correct acknowledgment format".

Section Callbacks.

(** The state behind the keepers, and the keeper the methods are on. *)
Variable W : Type.
Variable k : Keeper W.

(** [host.ChannelCapabilityPath] of IBC core. *)
Variable ChannelCapabilityPath : string -> string -> string.

(** The registered errors of IBC core and of the SDK that the
    transmitter wraps. *)
Variable ErrChannelNotFound : error.
Variable ErrSequenceSendNotFound : error.
Variable ErrChannelCapabilityNotFound : error.
Variable ErrJSONMarshal : error.

(** The codec: [packetData.GetBytes()] and
    [types.ModuleCdc.UnmarshalJSON(bz, &packetAck)]. *)
Variable GetBytes : IbcPostPacketData -> bytes + error.
Variable UnmarshalJSON : bytes -> IbcPostPacketAck + error.

(** The error [data.ValidateBasic()] reports. *)
Variable ValidationError : error.

(** Modelled from the spec: [data.ValidateBasic()] (the method is not in
    ibc_post.go) fails with a validation error if the creator or the
    title is empty, and accepts the payload otherwise. *)
Definition ValidateBasic (data : IbcPostPacketData) : option error :=
  if ((Creator data =? "") || (Title data =? ""))%bool
  then Some ValidationError
  else None.

Definition TransmitIbcPostPacket (ctx : Context W)
    (packetData : IbcPostPacketData) (sourcePort sourceChannel : string)
    (timeoutHeight : Height) (timeoutTimestamp : N)
  : Context W * option error :=
  match types.GetChannel (ChannelKeeper k) (world ctx)
          sourcePort sourceChannel with
  | None =>
      (ctx, Some (Wrap ErrChannelNotFound
                    ("port ID (" +s sourcePort +s ") channel ID ("
                       +s sourceChannel +s ")")))
  | Some sourceChannelEnd =>
  let destinationPort := GetPortID (GetCounterparty sourceChannelEnd) in
  let destinationChannel := GetChannelID (GetCounterparty sourceChannelEnd) in
  match types.GetNextSequenceSend (ChannelKeeper k) (world ctx)
          sourcePort sourceChannel with
  | None =>
      (ctx, Some (Wrap ErrSequenceSendNotFound
                    ("source port: " +s sourcePort
                       +s ", source channel: " +s sourceChannel)))
  | Some sequence =>
  match types.GetCapability (ScopedKeeper k) (world ctx)
          (ChannelCapabilityPath sourcePort sourceChannel) with
  | None =>
      (ctx, Some (Wrap ErrChannelCapabilityNotFound
                    "module does not own channel capability"))
  | Some channelCap =>
  match GetBytes packetData with
  | inr err =>
      (ctx, Some (Wrap ErrJSONMarshal
                    ("cannot marshal the packet: " +s Error err)))
  | inl packetBytes =>
  let packet :=
    NewPacket packetBytes sequence sourcePort sourceChannel
      destinationPort destinationChannel timeoutHeight timeoutTimestamp in
  let '(world', sent) :=
    types.SendPacket (ChannelKeeper k) (world ctx) channelCap packet in
  let ctx' :=
    {| world := world'; posts := posts ctx;
       sentPosts := sentPosts ctx; timedoutPosts := timedoutPosts ctx |} in
  match sent with
  | Some err => (ctx', Some err)
  | None => (ctx', None)
  end
  end end end end.

Definition OnRecvIbcPostPacket (ctx : Context W) (packet : Packet)
    (data : IbcPostPacketData)
  : Context W * (IbcPostPacketAck * option error) :=
  let packetAck := IbcPostPacketAck_zero in
  match ValidateBasic data with
  | Some err => (ctx, (packetAck, Some err))
  | None =>
      let '(ctx', id) :=
        AppendPost ctx
          {| Post_Creator :=
               SourcePort packet +s "-" +s SourceChannel packet
                 +s "-" +s Creator data;
             Post_Title := Title data;
             Post_Content := Content data |} in
      let packetAck := {| PostID := FormatUint_10 id |} in
      (ctx', (packetAck, None))
  end.

Definition OnAcknowledgementIbcPostPacket (ctx : Context W)
    (packet : Packet) (data : IbcPostPacketData) (ack : Acknowledgement)
  : Context W * option error :=
  match Response ack with
  | Acknowledgement_Error _ =>
      (ctx, None)
  | Acknowledgement_Result result =>
      match UnmarshalJSON result with
      | inr _ =>
          (ctx, Some (errors_New "cannot unmarshal acknowledgment"))
      | inl packetAck =>
          let '(ctx', _) :=
            AppendSentPost ctx
              {| SentPost_Creator := Creator data;
                 SentPost_PostID := PostID packetAck;
                 SentPost_Title := Title data;
                 SentPost_Chain :=
                   DestinationPort packet +s "-"
                     +s DestinationChannel packet |} in
          (ctx', None)
      end
  | Response_nil =>
      (ctx, Some (errors_New
         "the counter-party module does not implement the correct acknowledgment format"))
  end.

Definition OnTimeoutIbcPostPacket (ctx : Context W) (packet : Packet)
    (data : IbcPostPacketData) : Context W * option error :=
  let '(ctx', _) :=
    AppendTimedoutPost ctx
      {| TimedoutPost_Title := Title data;
         TimedoutPost_Creator := Creator data;
         TimedoutPost_Chain :=
           DestinationPort packet +s "-" +s DestinationChannel packet |} in
  (ctx', None).

End Callbacks.

(** ** Sequences of reconciler calls *)

(** What the transport may call back for a packet it was handed: the
    acknowledgement callback with some acknowledgement, or the timeout
    callback. *)
Inductive ReconcilerCall : Type :=
| Call_OnAcknowledgement (ack : Acknowledgement)
| Call_OnTimeout.

Section Reconcilers.

Variable W : Type.
Variable UnmarshalJSON : bytes -> IbcPostPacketAck + error.

Definition reconcile (packet : Packet) (data : IbcPostPacketData)
    (ctx : Context W) (call : ReconcilerCall) : Context W * option error :=
  match call with
  | Call_OnAcknowledgement ack =>
      OnAcknowledgementIbcPostPacket UnmarshalJSON ctx packet data ack
  | Call_OnTimeout =>
      OnTimeoutIbcPostPacket ctx packet data
  end.

(** The calls of a sequence, one after the other, each on the context the
    one before left; an error of a call is returned to the transport and
    does not stop the later ones. *)
Fixpoint reconcile_all (packet : Packet) (data : IbcPostPacketData)
    (ctx : Context W) (calls : list ReconcilerCall) : Context W :=
  match calls with
  | [] => ctx
  | call :: calls' =>
      reconcile_all packet data (fst (reconcile packet data ctx call)) calls'
  end.

(** Does a call append a SentPost?  An acknowledgement does when it is a
    result that decodes; a timeout never. *)
Definition appends_SentPost (call : ReconcilerCall) : bool :=
  match call with
  | Call_OnAcknowledgement ack =>
      match Response ack with
      | Acknowledgement_Result result =>
          match UnmarshalJSON result with
          | inl _ => true
          | inr _ => false
          end
      | _ => false
      end
  | Call_OnTimeout => false
  end.

(** Does a call append a TimedoutPost?  A timeout always. *)
Definition appends_TimedoutPost (call : ReconcilerCall) : bool :=
  match call with
  | Call_OnAcknowledgement _ => false
  | Call_OnTimeout => true
  end.

End Reconcilers.

(** The entries a store has gained since an earlier state of it. *)
Definition created {R : Type} (before after : Store R) : list (N * R) :=
  skipn (Store_size before) (entries after).

(** The SentPost and TimedoutPost records that a context has gained. *)
Definition records_created {W : Type} (before after : Context W) : nat :=
  List.length (created (sentPosts before) (sentPosts after))
  + List.length (created (timedoutPosts before) (timedoutPosts after)).

(** The mutual exclusion of the two reconcilers, as the specification
    words it: at most one SentPost or TimedoutPost comes of a packet. *)
Definition at_most_one_record {W : Type} (before after : Context W) : Prop :=
  records_created before after <= 1.

(** The SentPost that a call for a packet leaves, if it leaves one: that of
    an acknowledgement with a result that decodes. *)
Definition SentPosts_of (UnmarshalJSON : bytes -> IbcPostPacketAck + error)
    (packet : Packet) (data : IbcPostPacketData) (call : ReconcilerCall)
  : list SentPost :=
  match call with
  | Call_OnAcknowledgement ack =>
      match Response ack with
      | Acknowledgement_Result result =>
          match UnmarshalJSON result with
          | inl packetAck =>
              [{| SentPost_Creator := Creator data;
                  SentPost_PostID := PostID packetAck;
                  SentPost_Title := Title data;
                  SentPost_Chain :=
                    DestinationPort packet +s "-"
                      +s DestinationChannel packet |}]
          | inr _ => []
          end
      | _ => []
      end
  | Call_OnTimeout => []
  end.

(** The TimedoutPost that a call for a packet leaves, if it leaves one:
    that of a timeout. *)
Definition TimedoutPosts_of (packet : Packet) (data : IbcPostPacketData)
    (call : ReconcilerCall) : list TimedoutPost :=
  match call with
  | Call_OnAcknowledgement _ => []
  | Call_OnTimeout =>
      [{| TimedoutPost_Title := Title data;
          TimedoutPost_Creator := Creator data;
          TimedoutPost_Chain :=
            DestinationPort packet +s "-" +s DestinationChannel packet |}]
  end.

(** ** A transport and a codec to run the callbacks on *)

Module Fake.

(** The state of a small transport: the channels that are open, the next
    send sequences, the capabilities the module holds, and the packets
    handed over so far, of which it takes [capacity] at most. *)
Record World : Type := mkWorld {
  channels : list (string * string * Channel);
  sequences : list (string * string * N);
  capabilities : list (string * Capability);
  capacity : nat;
  outbox : list (Capability * Packet)
}.

Fixpoint lookup2 {A : Type} (l : list (string * string * A))
    (port channel : string) : option A :=
  match l with
  | [] => None
  | (p, c, a) :: l' =>
      if ((p =? port) && (c =? channel))%bool then Some a
      else lookup2 l' port channel
  end.

Fixpoint lookup1 {A : Type} (l : list (string * A)) (key : string)
  : option A :=
  match l with
  | [] => None
  | (key', a) :: l' => if key' =? key then Some a else lookup1 l' key
  end.

Definition ErrFull : error := errors_New "outbox full".

Definition channelKeeper : types.ChannelKeeper World :=
  {| types.GetChannel := fun w port channel =>
       lookup2 (channels w) port channel;
     types.GetNextSequenceSend := fun w port channel =>
       lookup2 (sequences w) port channel;
     types.SendPacket := fun w cap packet =>
       if Nat.ltb (List.length (outbox w)) (capacity w)
       then ({| channels := channels w; sequences := sequences w;
                capabilities := capabilities w; capacity := capacity w;
                outbox := outbox w ++ [(cap, packet)] |}, None)
       else (w, Some ErrFull) |}.

Definition scopedKeeper : types.ScopedKeeper World :=
  {| types.GetCapability := fun w name => lookup1 (capabilities w) name |}.

Definition keeper : Keeper World :=
  {| ChannelKeeper := channelKeeper; ScopedKeeper := scopedKeeper |}.

Definition ChannelCapabilityPath (portID channelID : string) : string :=
  "capabilities/ports/" ++ portID ++ "/channels/" ++ channelID.

(** Stand-ins for the registered errors. *)
Definition ErrChannelNotFound : error :=
  Registered "channel" 3 "channel not found".
Definition ErrSequenceSendNotFound : error :=
  Registered "channel" 10 "sequence send not found".
Definition ErrChannelCapabilityNotFound : error :=
  Registered "channel" 9 "channel capability not found".
Definition ErrJSONMarshal : error :=
  Registered "sdk" 16 "failed to marshal JSON bytes".
Definition ValidationError : error :=
  Registered "sdk" 18 "invalid request".

(** The bytes of the double quote and of the backslash. *)
Definition quote : Byte.byte := Byte.x22.
Definition backslash : Byte.byte := Byte.x5c.

(** The bytes of the JSON object whose field postID is [postID]. *)
Definition json_postID (postID : string) : bytes :=
  [Byte.x7b; quote] ++ list_byte_of_string "postID"
    ++ [quote; Byte.x3a; quote] ++ list_byte_of_string postID
    ++ [quote; Byte.x7d].

(** What is left of [bz] behind [prefix], if it starts with it. *)
Fixpoint strip_prefix (prefix bz : bytes) : option bytes :=
  match prefix, bz with
  | [], _ => Some bz
  | p :: prefix', b :: bz' =>
      if Byte.eqb p b then strip_prefix prefix' bz' else None
  | _ :: _, [] => None
  end.

(** The bytes up to the first quote, and those behind it; none if there
    is no quote or a backslash comes first. *)
Fixpoint until_quote (bz : bytes) : option (bytes * bytes) :=
  match bz with
  | [] => None
  | b :: bz' =>
      if Byte.eqb b quote then Some ([], bz')
      else if Byte.eqb b backslash then None
      else match until_quote bz' with
           | Some (text, rest) => Some (b :: text, rest)
           | None => None
           end
  end.

(** A codec that is enough to run the callbacks.  A payload with an empty
    content does not encode.  An acknowledgement is decoded from the JSON
    object with the one string field postID, or from the empty object,
    which leaves the post id empty; the text of the field is taken up to
    its closing quote and may hold no backslash.  Any other bytes are
    refused. *)
Definition GetBytes (data : IbcPostPacketData) : bytes + error :=
  if Content data =? "" then inr (errors_New "nothing to encode")
  else inl (list_byte_of_string
              (Creator data ++ "/" ++ Title data ++ "/" ++ Content data)).

Definition UnmarshalJSON (bz : bytes) : IbcPostPacketAck + error :=
  match strip_prefix [Byte.x7b; Byte.x7d] bz with
  | Some [] => inl {| PostID := "" |}
  | _ =>
      match strip_prefix
              ([Byte.x7b; quote] ++ list_byte_of_string "postID"
                 ++ [quote; Byte.x3a; quote]) bz with
      | Some field =>
          match until_quote field with
          | Some (text, rest) =>
              match strip_prefix [Byte.x7d] rest with
              | Some [] => inl {| PostID := string_of_list_byte text |}
              | _ => inr (errors_New "invalid character")
              end
          | None => inr (errors_New "unexpected end of JSON input")
          end
      | None => inr (errors_New "invalid character")
      end
  end.

Definition height : Height :=
  {| RevisionNumber := 0; RevisionHeight := 100 |}.

(** Three open channels: blog/channel-0 can be sent on; blog/channel-1 has
    no send sequence; the module holds no capability for blog/channel-2. *)
Definition world0 : World :=
  {| channels :=
       [("blog", "channel-0",
         {| GetCounterparty :=
              {| GetPortID := "blog"; GetChannelID := "channel-7" |} |});
        ("blog", "channel-1",
         {| GetCounterparty :=
              {| GetPortID := "blog"; GetChannelID := "channel-8" |} |});
        ("blog", "channel-2",
         {| GetCounterparty :=
              {| GetPortID := "blog"; GetChannelID := "channel-9" |} |})];
     sequences := [("blog", "channel-0", 1%N); ("blog", "channel-2", 5%N)];
     capabilities := [(ChannelCapabilityPath "blog" "channel-0",
                       {| Index := 4 |})];
     capacity := 1;
     outbox := [] |}.

Definition ctx0 : Context World :=
  {| world := world0; posts := Store_empty;
     sentPosts := Store_empty; timedoutPosts := Store_empty |}.

(** The packets and payloads of the examples of the specification. *)
Definition packet_in : Packet :=
  NewPacket [] 1 "post" "channel-0" "post" "channel-5" height 0.

Definition alice : IbcPostPacketData :=
  {| Title := "T"; Content := "C"; Creator := "alice" |}.

Definition anonymous : IbcPostPacketData :=
  {| Title := "T"; Content := "C"; Creator := "" |}.

Definition untitled : IbcPostPacketData :=
  {| Title := ""; Content := "C"; Creator := "alice" |}.

Definition packet_bob : Packet :=
  NewPacket [] 1 "post" "channel-0" "post" "channel-1" height 0.

Definition bob : IbcPostPacketData :=
  {| Title := "Hi"; Content := "hello"; Creator := "bob" |}.

Definition packet_carol : Packet :=
  NewPacket [] 2 "post" "channel-0" "post" "channel-2" height 0.

Definition carol : IbcPostPacketData :=
  {| Title := "X"; Content := "lost"; Creator := "carol" |}.

(** A result that decodes to the post id 7, one that decodes to the empty
    post id (the empty JSON object), one that does not decode (the JSON
    number 7), and the three kinds of acknowledgement. *)
Definition result_7 : bytes := json_postID "7".
Definition result_bad : bytes := [Byte.x37].

Definition ack_7 : Acknowledgement :=
  {| Response := Acknowledgement_Result result_7 |}.
Definition ack_bad : Acknowledgement :=
  {| Response := Acknowledgement_Result result_bad |}.
Definition ack_error : Acknowledgement :=
  {| Response := Acknowledgement_Error "rejected" |}.
Definition ack_unset : Acknowledgement :=
  {| Response := Response_nil |}.

(** The transmitter on this transport and codec, and a context whose
    transport takes no more packets. *)
Definition Transmit :=
  TransmitIbcPostPacket keeper ChannelCapabilityPath ErrChannelNotFound
    ErrSequenceSendNotFound ErrChannelCapabilityNotFound ErrJSONMarshal
    GetBytes.

Definition silent : IbcPostPacketData :=
  {| Title := "T"; Content := ""; Creator := "alice" |}.

Definition ctx_full : Context World :=
  {| world :=
       {| channels := channels world0; sequences := sequences world0;
          capabilities := capabilities world0; capacity := 0;
          outbox := [] |};
     posts := Store_empty;
     sentPosts := Store_empty; timedoutPosts := Store_empty |}.

End Fake.

(** ** The module as it is wired, and sequences of callbacks *)

(** What the callbacks take from outside ibc_post.go, in one record: the
    keeper, the capability path function, the registered errors, the codec
    and the validation error. *)
Record Wiring (W : Type) : Type := mkWiring {
  wired_keeper : Keeper W;
  wired_ChannelCapabilityPath : string -> string -> string;
  wired_ErrChannelNotFound : error;
  wired_ErrSequenceSendNotFound : error;
  wired_ErrChannelCapabilityNotFound : error;
  wired_ErrJSONMarshal : error;
  wired_GetBytes : IbcPostPacketData -> bytes + error;
  wired_UnmarshalJSON : bytes -> IbcPostPacketAck + error;
  wired_ValidationError : error
}.

(** A call of one of the four callbacks, with its arguments. *)
Inductive Callback : Type :=
| Do_Transmit (packetData : IbcPostPacketData)
    (sourcePort sourceChannel : string)
    (timeoutHeight : Height) (timeoutTimestamp : N)
| Do_OnRecv (packet : Packet) (data : IbcPostPacketData)
| Do_OnAcknowledgement (packet : Packet) (data : IbcPostPacketData)
    (ack : Acknowledgement)
| Do_OnTimeout (packet : Packet) (data : IbcPostPacketData).

Section Handling.

Variable W : Type.
Variable m : Wiring W.

(** The transmitter of a wired module. *)
Definition wired_Transmit (ctx : Context W) (packetData : IbcPostPacketData)
    (sourcePort sourceChannel : string)
    (timeoutHeight : Height) (timeoutTimestamp : N)
  : Context W * option error :=
  TransmitIbcPostPacket (wired_keeper m) (wired_ChannelCapabilityPath m)
    (wired_ErrChannelNotFound m) (wired_ErrSequenceSendNotFound m)
    (wired_ErrChannelCapabilityNotFound m) (wired_ErrJSONMarshal m)
    (wired_GetBytes m) ctx packetData sourcePort sourceChannel
    timeoutHeight timeoutTimestamp.

(** The context a call leaves. *)
Definition handle (ctx : Context W) (call : Callback) : Context W :=
  match call with
  | Do_Transmit packetData sourcePort sourceChannel
      timeoutHeight timeoutTimestamp =>
      fst (wired_Transmit ctx packetData sourcePort sourceChannel
             timeoutHeight timeoutTimestamp)
  | Do_OnRecv packet data =>
      fst (OnRecvIbcPostPacket (wired_ValidationError m) ctx packet data)
  | Do_OnAcknowledgement packet data ack =>
      fst (OnAcknowledgementIbcPostPacket (wired_UnmarshalJSON m)
             ctx packet data ack)
  | Do_OnTimeout packet data =>
      fst (OnTimeoutIbcPostPacket ctx packet data)
  end.

(** The calls of a sequence, each on the context the one before left. *)
Fixpoint handle_all (ctx : Context W) (calls : list Callback) : Context W :=
  match calls with
  | [] => ctx
  | call :: calls' => handle_all (handle ctx call) calls'
  end.

(** The calls that append to each of the three stores: a receive whose
    payload passes validation, an acknowledgement with a result that
    decodes, a timeout. *)
Definition appends_to_posts (call : Callback) : bool :=
  match call with
  | Do_OnRecv _ data =>
      match ValidateBasic (wired_ValidationError m) data with
      | None => true
      | Some _ => false
      end
  | _ => false
  end.

Definition appends_to_sentPosts (call : Callback) : bool :=
  match call with
  | Do_OnAcknowledgement _ _ ack =>
      appends_SentPost (wired_UnmarshalJSON m) (Call_OnAcknowledgement ack)
  | _ => false
  end.

Definition appends_to_timedoutPosts (call : Callback) : bool :=
  match call with
  | Do_OnTimeout _ _ => true
  | _ => false
  end.

End Handling.

(** The creators of the posts that a store has gained. *)
Definition created_creators (before after : Store Post) : list string :=
  map (fun entry => Post_Creator (snd entry)) (created before after).

(** Two chains to run a post from one to the other. *)
Module Chains.

Definition wiring : Wiring Fake.World :=
  {| wired_keeper := Fake.keeper;
     wired_ChannelCapabilityPath := Fake.ChannelCapabilityPath;
     wired_ErrChannelNotFound := Fake.ErrChannelNotFound;
     wired_ErrSequenceSendNotFound := Fake.ErrSequenceSendNotFound;
     wired_ErrChannelCapabilityNotFound := Fake.ErrChannelCapabilityNotFound;
     wired_ErrJSONMarshal := Fake.ErrJSONMarshal;
     wired_GetBytes := Fake.GetBytes;
     wired_UnmarshalJSON := Fake.UnmarshalJSON;
     wired_ValidationError := Fake.ValidationError |}.

(** The receiving chain: its post store already holds three posts. *)
Definition ctxB : Context Fake.World :=
  {| world := Fake.world0;
     posts :=
       {| nextId := 3;
          entries :=
            [(0%N, {| Post_Creator := "dave"; Post_Title := "a";
                      Post_Content := "b" |});
             (1%N, {| Post_Creator := "erin"; Post_Title := "c";
                      Post_Content := "d" |});
             (2%N, {| Post_Creator := "dave"; Post_Title := "e";
                      Post_Content := "f" |})] |};
     sentPosts := Store_empty; timedoutPosts := Store_empty |}.

(** The packet that the transmitter builds for alice's post on
    blog/channel-0, and the acknowledgement of post 3. *)
Definition packet_alice : Packet :=
  NewPacket
    (list_byte_of_string "alice/T/C") 1 "blog" "channel-0"
    "blog" "channel-7" Fake.height 9.

Definition result_3 : bytes := Fake.json_postID "3".

(** The same post with another content, and the same packet as another
    sequence number would carry it. *)
Definition alice_reworded : IbcPostPacketData :=
  {| Title := "T"; Content := "other words"; Creator := "alice" |}.

Definition packet_alice_later : Packet :=
  NewPacket [] 8 "other" "channel-4" "blog" "channel-7" Fake.height 0.

(** Two packets whose source port and channel split the same text at
    different dashes. *)
Definition packet_split_late : Packet :=
  NewPacket [] 1 "blog-x" "channel-0" "post" "channel-5" Fake.height 0.

Definition packet_split_early : Packet :=
  NewPacket [] 1 "blog" "x-channel-0" "post" "channel-5" Fake.height 0.

(** A run of calls of all four kinds. *)
Definition busy_day : list Callback :=
  [Do_OnRecv Fake.packet_in Fake.alice;
   Do_Transmit Fake.alice "blog" "channel-0" Fake.height 0;
   Do_OnRecv Fake.packet_in Fake.anonymous;
   Do_OnAcknowledgement Fake.packet_bob Fake.bob Fake.ack_7;
   Do_OnAcknowledgement Fake.packet_bob Fake.bob Fake.ack_bad;
   Do_OnTimeout Fake.packet_carol Fake.carol;
   Do_OnRecv Fake.packet_in Fake.bob;
   Do_OnTimeout Fake.packet_carol Fake.carol].

End Chains.

(** * Properties *)

(** ** Stores *)

Lemma Store_append_entries (R : Type) (s : Store R) (r : R) :
  entries (fst (Store_append s r)) = entries s ++ [(nextId s, r)].
Proof. reflexivity. Qed.

Lemma Store_append_size (R : Type) (s : Store R) (r : R) :
  Store_size (fst (Store_append s r)) = S (Store_size s).
Proof.
  unfold Store_size. rewrite Store_append_entries, length_app. simpl. lia.
Qed.

Lemma created_app (R : Type) (s s' : Store R) (l : list (N * R)) :
  entries s' = entries s ++ l -> created s s' = l.
Proof.
  unfold created, Store_size. intros ->.
  rewrite skipn_app, skipn_all, Nat.sub_diag. reflexivity.
Qed.

(** ** Decimal ids *)

(** The decimal string of an id reads back as that id. *)
Lemma ParseUint_FormatUint (i : N) : ParseUint_10 (FormatUint_10 i) = Some i.
Proof.
  unfold ParseUint_10, FormatUint_10.
  rewrite NilEmpty.usu. simpl. now rewrite DecimalN.Unsigned.of_to.
Qed.

Lemma FormatUint_10_inj (i j : N) :
  FormatUint_10 i = FormatUint_10 j -> i = j.
Proof.
  intros H. apply (f_equal ParseUint_10) in H.
  rewrite !ParseUint_FormatUint in H. congruence.
Qed.

(** ** Validation *)

Lemma ValidateBasic_None (ValidationError : error) (data : IbcPostPacketData) :
  ValidateBasic ValidationError data = None <->
  Creator data <> "" /\ Title data <> "".
Proof.
  unfold ValidateBasic.
  destruct (Creator data =? "") eqn:Hc; destruct (Title data =? "") eqn:Ht;
    simpl; rewrite ?String.eqb_eq, ?String.eqb_neq in *;
    split; try discriminate; try tauto; intros [? ?]; congruence.
Qed.

Lemma ValidateBasic_Some (ValidationError : error) (data : IbcPostPacketData) :
  Creator data = "" \/ Title data = "" ->
  ValidateBasic ValidationError data = Some ValidationError.
Proof.
  unfold ValidateBasic. intros [H | H]; rewrite H; simpl.
  - reflexivity.
  - now rewrite orb_true_r.
Qed.

(** ** The receiver *)

Section Receiver.

Variable W : Type.
Variable ValidationError : error.

(** C1.  When the payload passes validation, OnRecvIbcPostPacket appends
    exactly one record to the post store: its creator is the source port,
    a dash, the source channel, a dash and the creator of the payload, its
    title and content are those of the payload.  It returns no error and an
    acknowledgement whose PostID is the decimal string of the id the store
    gave the record.  The other stores are left as they were. *)
Theorem OnRecvIbcPostPacket_appends_post
    (ctx : Context W) (packet : Packet) (data : IbcPostPacketData) :
  ValidateBasic ValidationError data = None ->
  let r := OnRecvIbcPostPacket ValidationError ctx packet data in
  let id := nextId (posts ctx) in
  snd (snd r) = None /\
  entries (posts (fst r)) =
    entries (posts ctx) ++
      [(id, {| Post_Creator :=
                 SourcePort packet +s "-" +s SourceChannel packet
                   +s "-" +s Creator data;
               Post_Title := Title data;
               Post_Content := Content data |})] /\
  Store_size (posts (fst r)) = S (Store_size (posts ctx)) /\
  PostID (fst (snd r)) = FormatUint_10 id /\
  ParseUint_10 (PostID (fst (snd r))) = Some id /\
  sentPosts (fst r) = sentPosts ctx /\
  timedoutPosts (fst r) = timedoutPosts ctx /\
  world (fst r) = world ctx.
Proof.
  intros Hvalid r id. subst r id.
  unfold OnRecvIbcPostPacket. rewrite Hvalid.
  unfold AppendPost. simpl.
  repeat split.
  - unfold Store_size. simpl. rewrite length_app. simpl. lia.
  - apply ParseUint_FormatUint.
Qed.

(** C3.  When the creator or the title of the payload is empty,
    OnRecvIbcPostPacket returns the validation error and the context it was
    given: the validation comes first, and nothing is appended to the post
    store, whose size is what it was. *)
Theorem OnRecvIbcPostPacket_rejects_empty
    (ctx : Context W) (packet : Packet) (data : IbcPostPacketData) :
  Creator data = "" \/ Title data = "" ->
  let r := OnRecvIbcPostPacket ValidationError ctx packet data in
  snd (snd r) = Some ValidationError /\
  fst r = ctx /\
  entries (posts (fst r)) = entries (posts ctx) /\
  Store_size (posts (fst r)) = Store_size (posts ctx).
Proof.
  intros Hempty r. subst r.
  unfold OnRecvIbcPostPacket.
  rewrite (ValidateBasic_Some ValidationError data Hempty).
  simpl. repeat split.
Qed.

End Receiver.

(** The receive example of the specification: alice's post arriving from
    post/channel-0 into an empty store. *)
Lemma OnRecvIbcPostPacket_appends_post_witness :
  ValidateBasic Fake.ValidationError Fake.alice = None /\
  snd (snd (OnRecvIbcPostPacket Fake.ValidationError Fake.ctx0
              Fake.packet_in Fake.alice)) = None /\
  entries (posts (fst (OnRecvIbcPostPacket Fake.ValidationError Fake.ctx0
                         Fake.packet_in Fake.alice))) =
    [(0%N, {| Post_Creator := "post-channel-0-alice";
              Post_Title := "T"; Post_Content := "C" |})] /\
  PostID (fst (snd (OnRecvIbcPostPacket Fake.ValidationError Fake.ctx0
                      Fake.packet_in Fake.alice))) = "0".
Proof.
  destruct (@OnRecvIbcPostPacket_appends_post Fake.World Fake.ValidationError
              Fake.ctx0 Fake.packet_in Fake.alice eq_refl)
    as (Herr & Hentries & _ & Hid & _).
  split; [reflexivity |].
  split; [exact Herr |].
  split; [exact Hentries | exact Hid].
Defined.

Lemma OnRecvIbcPostPacket_rejects_empty_witness :
  (Creator Fake.anonymous = "" \/ Title Fake.anonymous = "") /\
  (Creator Fake.untitled = "" \/ Title Fake.untitled = "") /\
  snd (snd (OnRecvIbcPostPacket Fake.ValidationError Fake.ctx0
              Fake.packet_in Fake.anonymous)) = Some Fake.ValidationError /\
  Store_size
    (posts (fst (OnRecvIbcPostPacket Fake.ValidationError Fake.ctx0
                   Fake.packet_in Fake.untitled))) = 0.
Proof.
  split; [left; reflexivity |].
  split; [right; reflexivity |].
  split.
  - exact (proj1 (@OnRecvIbcPostPacket_rejects_empty Fake.World
                    Fake.ValidationError Fake.ctx0 Fake.packet_in
                    Fake.anonymous (or_introl eq_refl))).
  - exact (proj2 (proj2 (proj2
             (@OnRecvIbcPostPacket_rejects_empty Fake.World
                Fake.ValidationError Fake.ctx0 Fake.packet_in
                Fake.untitled (or_intror eq_refl))))).
Defined.

(** ** The acknowledgement reconciler *)

Section AckReconciler.

Variable W : Type.
Variable UnmarshalJSON : bytes -> IbcPostPacketAck + error.

(** The context after a result that decodes: one more SentPost. *)
Lemma OnAcknowledgement_decoded
    (ctx : Context W) (packet : Packet) (data : IbcPostPacketData)
    (ack : Acknowledgement) (result : bytes) (packetAck : IbcPostPacketAck) :
  Response ack = Acknowledgement_Result result ->
  UnmarshalJSON result = inl packetAck ->
  OnAcknowledgementIbcPostPacket UnmarshalJSON ctx packet data ack =
    ({| world := world ctx;
        posts := posts ctx;
        sentPosts :=
          {| nextId := uint64_succ (nextId (sentPosts ctx));
             entries :=
               entries (sentPosts ctx) ++
                 [(nextId (sentPosts ctx),
                   {| SentPost_Creator := Creator data;
                      SentPost_PostID := PostID packetAck;
                      SentPost_Title := Title data;
                      SentPost_Chain :=
                        DestinationPort packet +s "-"
                          +s DestinationChannel packet |})] |};
        timedoutPosts := timedoutPosts ctx |}, None).
Proof.
  intros Hack Hdec. unfold OnAcknowledgementIbcPostPacket.
  rewrite Hack, Hdec. reflexivity.
Qed.

(** C4.  On a result acknowledgement whose bytes decode,
    OnAcknowledgementIbcPostPacket appends exactly one record to the
    sent-post store, with the creator and title of the payload, the PostID
    of the decoded acknowledgement and the destination port, a dash and the
    destination channel as the chain; it returns no error and leaves the
    other stores as they were. *)
Theorem OnAcknowledgement_appends_sentPost
    (ctx : Context W) (packet : Packet) (data : IbcPostPacketData)
    (ack : Acknowledgement) (result : bytes) (packetAck : IbcPostPacketAck) :
  Response ack = Acknowledgement_Result result ->
  UnmarshalJSON result = inl packetAck ->
  let r := OnAcknowledgementIbcPostPacket UnmarshalJSON ctx packet data ack in
  snd r = None /\
  entries (sentPosts (fst r)) =
    entries (sentPosts ctx) ++
      [(nextId (sentPosts ctx),
        {| SentPost_Creator := Creator data;
           SentPost_PostID := PostID packetAck;
           SentPost_Title := Title data;
           SentPost_Chain :=
             DestinationPort packet +s "-" +s DestinationChannel packet |})] /\
  Store_size (sentPosts (fst r)) = S (Store_size (sentPosts ctx)) /\
  posts (fst r) = posts ctx /\
  timedoutPosts (fst r) = timedoutPosts ctx /\
  world (fst r) = world ctx.
Proof.
  intros Hack Hdec r. subst r.
  rewrite (OnAcknowledgement_decoded ctx packet data ack Hack Hdec).
  simpl. repeat split.
  unfold Store_size. simpl. rewrite length_app. simpl. lia.
Qed.

(** C5.  OnAcknowledgementIbcPostPacket returns an error exactly when the
    acknowledgement is a result whose bytes do not decode, and the error is
    then the decode error, or when its response is neither a result nor an
    error, and the error is then the unsupported-format error.  Whenever it
    returns an error the context, and so the sent-post store, is
    unchanged. *)
Theorem OnAcknowledgement_error_iff
    (ctx : Context W) (packet : Packet) (data : IbcPostPacketData)
    (ack : Acknowledgement) :
  let r := OnAcknowledgementIbcPostPacket UnmarshalJSON ctx packet data ack in
  (snd r <> None <->
     (exists result err,
        Response ack = Acknowledgement_Result result /\
        UnmarshalJSON result = inr err) \/
     Response ack = Response_nil) /\
  (forall result err,
     Response ack = Acknowledgement_Result result ->
     UnmarshalJSON result = inr err ->
     snd r = Some AckDecodeError) /\
  (Response ack = Response_nil -> snd r = Some UnsupportedAckFormat) /\
  (snd r <> None ->
     fst r = ctx /\ entries (sentPosts (fst r)) = entries (sentPosts ctx)).
Proof.
  intros r. subst r. unfold OnAcknowledgementIbcPostPacket.
  destruct (Response ack) as [msg | result |].
  - simpl. split; [split |].
    + intros H. now elim H.
    + intros [(result & err & Hr & _) | Hr]; discriminate.
    + repeat split; intros; congruence.
  - destruct (UnmarshalJSON result) as [packetAck | err] eqn:Hdec; simpl.
    + split; [split |].
      * intros H. now elim H.
      * intros [(result' & err & Hr & Hd) | Hr]; [| discriminate].
        injection Hr as <-. congruence.
      * repeat split; intros; congruence.
    + split; [split |].
      * intros _. left. exists result, err. now split.
      * discriminate.
      * repeat split; intros; congruence.
  - simpl. split; [split |].
    + intros _. now right.
    + discriminate.
    + repeat split; intros; congruence.
Qed.

(** C9.  On an error acknowledgement OnAcknowledgementIbcPostPacket
    returns no error and the context it was given: none of the three
    stores changes. *)
Theorem OnAcknowledgement_error_ack_noop
    (ctx : Context W) (packet : Packet) (data : IbcPostPacketData)
    (ack : Acknowledgement) (message : string) :
  Response ack = Acknowledgement_Error message ->
  let r := OnAcknowledgementIbcPostPacket UnmarshalJSON ctx packet data ack in
  snd r = None /\
  fst r = ctx /\
  sentPosts (fst r) = sentPosts ctx /\
  timedoutPosts (fst r) = timedoutPosts ctx /\
  posts (fst r) = posts ctx.
Proof.
  intros Hack r. subst r. unfold OnAcknowledgementIbcPostPacket.
  rewrite Hack. simpl. repeat split.
Qed.


End AckReconciler.

(** The acknowledgement example of the specification: bob's post, sent to
    post/channel-1 and acknowledged with the post id 7. *)
Lemma OnAcknowledgement_appends_sentPost_witness :
  Response Fake.ack_7 = Acknowledgement_Result Fake.result_7 /\
  Fake.UnmarshalJSON Fake.result_7 = inl {| PostID := "7" |} /\
  snd (OnAcknowledgementIbcPostPacket Fake.UnmarshalJSON Fake.ctx0
         Fake.packet_bob Fake.bob Fake.ack_7) = None /\
  entries (sentPosts (fst (OnAcknowledgementIbcPostPacket Fake.UnmarshalJSON
                             Fake.ctx0 Fake.packet_bob Fake.bob Fake.ack_7))) =
    [(0%N, {| SentPost_Creator := "bob"; SentPost_PostID := "7";
              SentPost_Title := "Hi"; SentPost_Chain := "post-channel-1" |})].
Proof.
  destruct (@OnAcknowledgement_appends_sentPost Fake.World Fake.UnmarshalJSON
              Fake.ctx0 Fake.packet_bob Fake.bob Fake.ack_7 Fake.result_7
              {| PostID := "7" |} eq_refl eq_refl)
    as (Herr & Hentries & _).
  split; [reflexivity |].
  split; [reflexivity |].
  split; [exact Herr | exact Hentries].
Defined.

(** A result that does not decode and an unset response are errors and
    append nothing; an error acknowledgement is not an error. *)
Lemma OnAcknowledgement_error_iff_witness :
  snd (OnAcknowledgementIbcPostPacket Fake.UnmarshalJSON Fake.ctx0
         Fake.packet_bob Fake.bob Fake.ack_bad) = Some AckDecodeError /\
  snd (OnAcknowledgementIbcPostPacket Fake.UnmarshalJSON Fake.ctx0
         Fake.packet_bob Fake.bob Fake.ack_unset)
    = Some UnsupportedAckFormat /\
  entries (sentPosts (fst (OnAcknowledgementIbcPostPacket Fake.UnmarshalJSON
                             Fake.ctx0 Fake.packet_bob Fake.bob
                             Fake.ack_unset))) = [].
Proof.
  destruct (@OnAcknowledgement_error_iff Fake.World Fake.UnmarshalJSON
              Fake.ctx0 Fake.packet_bob Fake.bob Fake.ack_bad)
    as (_ & Hdecode & _ & _).
  destruct (@OnAcknowledgement_error_iff Fake.World Fake.UnmarshalJSON
              Fake.ctx0 Fake.packet_bob Fake.bob Fake.ack_unset)
    as (Hiff & _ & Hunset & Hsame).
  split; [exact (Hdecode Fake.result_bad _ eq_refl eq_refl) |].
  split; [exact (Hunset eq_refl) |].
  exact (proj2 (Hsame (proj2 Hiff (or_intror eq_refl)))).
Defined.

Lemma OnAcknowledgement_error_ack_noop_witness :
  Response Fake.ack_error = Acknowledgement_Error "rejected" /\
  snd (OnAcknowledgementIbcPostPacket Fake.UnmarshalJSON Fake.ctx0
         Fake.packet_bob Fake.bob Fake.ack_error) = None /\
  fst (OnAcknowledgementIbcPostPacket Fake.UnmarshalJSON Fake.ctx0
         Fake.packet_bob Fake.bob Fake.ack_error) = Fake.ctx0.
Proof.
  destruct (@OnAcknowledgement_error_ack_noop Fake.World Fake.UnmarshalJSON
              Fake.ctx0 Fake.packet_bob Fake.bob Fake.ack_error "rejected"
              eq_refl)
    as (Herr & Hctx & _).
  split; [reflexivity |].
  split; [exact Herr | exact Hctx].
Defined.


(** ** The timeout reconciler *)

(** C6.  OnTimeoutIbcPostPacket appends, whatever the packet and the
    payload, exactly one record to the timed-out-post store, with the
    creator and the title of the payload and the destination port, a dash
    and the destination channel as the chain; it changes no other store and
    never returns an error. *)
Theorem OnTimeout_appends_timedoutPost
    (W : Type) (ctx : Context W) (packet : Packet) (data : IbcPostPacketData) :
  let r := OnTimeoutIbcPostPacket ctx packet data in
  snd r = None /\
  entries (timedoutPosts (fst r)) =
    entries (timedoutPosts ctx) ++
      [(nextId (timedoutPosts ctx),
        {| TimedoutPost_Title := Title data;
           TimedoutPost_Creator := Creator data;
           TimedoutPost_Chain :=
             DestinationPort packet +s "-" +s DestinationChannel packet |})] /\
  Store_size (timedoutPosts (fst r)) = S (Store_size (timedoutPosts ctx)) /\
  posts (fst r) = posts ctx /\
  sentPosts (fst r) = sentPosts ctx /\
  world (fst r) = world ctx.
Proof.
  intros r. subst r. unfold OnTimeoutIbcPostPacket, AppendTimedoutPost.
  simpl. repeat split.
  unfold Store_size. simpl. rewrite length_app. simpl. lia.
Qed.

(** The timeout example of the specification: carol's post, sent to
    post/channel-2 and timed out. *)
Example OnTimeout_carol :
  OnTimeoutIbcPostPacket Fake.ctx0 Fake.packet_carol Fake.carol =
    ({| world := Fake.world0; posts := Store_empty; sentPosts := Store_empty;
        timedoutPosts :=
          {| nextId := 1;
             entries :=
               [(0%N, {| TimedoutPost_Title := "X";
                         TimedoutPost_Creator := "carol";
                         TimedoutPost_Chain := "post-channel-2" |})] |} |},
     None).
Proof. reflexivity. Qed.

(** ** The transmitter *)

Section Transmitter.

Variable W : Type.
Variable k : Keeper W.
Variable ChannelCapabilityPath : string -> string -> string.
Variable ErrChannelNotFound : error.
Variable ErrSequenceSendNotFound : error.
Variable ErrChannelCapabilityNotFound : error.
Variable ErrJSONMarshal : error.
Variable GetBytes : IbcPostPacketData -> bytes + error.

Local Abbreviation Transmit :=
  (TransmitIbcPostPacket k ChannelCapabilityPath ErrChannelNotFound
     ErrSequenceSendNotFound ErrChannelCapabilityNotFound ErrJSONMarshal
     GetBytes).

(** The transmitter never touches the stores of the module. *)
Lemma Transmit_stores
    (ctx : Context W) (packetData : IbcPostPacketData)
    (sourcePort sourceChannel : string)
    (timeoutHeight : Height) (timeoutTimestamp : N) :
  let r := Transmit ctx packetData sourcePort sourceChannel
             timeoutHeight timeoutTimestamp in
  posts (fst r) = posts ctx /\
  sentPosts (fst r) = sentPosts ctx /\
  timedoutPosts (fst r) = timedoutPosts ctx.
Proof.
  intros r. subst r. unfold TransmitIbcPostPacket.
  destruct (types.GetChannel _ _ _ _) as [ch |]; [| now repeat split].
  destruct (types.GetNextSequenceSend _ _ _ _) as [seq |];
    [| now repeat split].
  destruct (types.GetCapability _ _ _) as [cap |]; [| now repeat split].
  destruct (GetBytes packetData) as [bz | err]; [| now repeat split].
  destruct (types.SendPacket _ _ _ _) as [w' [err |]]; now repeat split.
Qed.

(** C7.  TransmitIbcPostPacket fails with the wrapped channel-not-found
    error when the channel keeper has no channel for the source port and
    channel; if it has one, with the wrapped sequence-not-found error when
    there is no next send sequence; if there is one, with the wrapped
    capability-not-found error when the module does not hold the channel
    capability; if it does, with the wrapped marshalling error when the
    payload does not encode; and if it does, the packet is handed to
    SendPacket and what SendPacket returns is returned as it is.  An earlier
    failure wins over a later one, and none of the first four changes the
    context. *)
Theorem Transmit_failures_in_order
    (ctx : Context W) (packetData : IbcPostPacketData)
    (sourcePort sourceChannel : string)
    (timeoutHeight : Height) (timeoutTimestamp : N) :
  let r := Transmit ctx packetData sourcePort sourceChannel
             timeoutHeight timeoutTimestamp in
  let channel :=
    types.GetChannel (ChannelKeeper k) (world ctx) sourcePort sourceChannel in
  let sequence :=
    types.GetNextSequenceSend (ChannelKeeper k) (world ctx)
      sourcePort sourceChannel in
  let capability :=
    types.GetCapability (ScopedKeeper k) (world ctx)
      (ChannelCapabilityPath sourcePort sourceChannel) in
  (channel = None ->
   r = (ctx, Some (Wrap ErrChannelNotFound
                     ("port ID (" +s sourcePort +s ") channel ID ("
                        +s sourceChannel +s ")")))) /\
  (channel <> None -> sequence = None ->
   r = (ctx, Some (Wrap ErrSequenceSendNotFound
                     ("source port: " +s sourcePort
                        +s ", source channel: " +s sourceChannel)))) /\
  (channel <> None -> sequence <> None -> capability = None ->
   r = (ctx, Some (Wrap ErrChannelCapabilityNotFound
                     "module does not own channel capability"))) /\
  (channel <> None -> sequence <> None -> capability <> None ->
   forall err, GetBytes packetData = inr err ->
   r = (ctx, Some (Wrap ErrJSONMarshal
                     ("cannot marshal the packet: " +s Error err)))) /\
  (forall sourceChannelEnd seq channelCap packetBytes,
   channel = Some sourceChannelEnd -> sequence = Some seq ->
   capability = Some channelCap -> GetBytes packetData = inl packetBytes ->
   (world (fst r), snd r) =
     types.SendPacket (ChannelKeeper k) (world ctx) channelCap
       (NewPacket packetBytes seq sourcePort sourceChannel
          (GetPortID (GetCounterparty sourceChannelEnd))
          (GetChannelID (GetCounterparty sourceChannelEnd))
          timeoutHeight timeoutTimestamp)).
Proof.
  intros r channel sequence capability.
  subst r channel sequence capability.
  unfold TransmitIbcPostPacket.
  destruct (types.GetChannel _ _ _ _) as [ch |].
  2: { repeat split; intros; congruence. }
  destruct (types.GetNextSequenceSend _ _ _ _) as [seq |].
  2: { repeat split; intros; congruence. }
  destruct (types.GetCapability _ _ _) as [cap |].
  2: { repeat split; intros; congruence. }
  destruct (GetBytes packetData) as [bz | err].
  2: { repeat split; intros; congruence. }
  repeat split; intros; try congruence.
  match goal with
  | H1 : Some _ = Some _, H2 : Some _ = Some _, H3 : Some _ = Some _,
    H4 : inl _ = inl _ |- _ =>
      injection H1 as <-; injection H2 as <-; injection H3 as <-;
      injection H4 as <-
  end.
  destruct (types.SendPacket _ _ _ _) as [w' [err |]]; reflexivity.
Qed.

(** C8.  When the channel and its next send sequence are found and the
    capability is held, TransmitIbcPostPacket leaves the three stores of
    the module as they were, and the packet it builds and hands to
    SendPacket, once the payload is encoded, has the source port and
    channel of the call, the port and channel of the counterparty of the
    channel as its destination, the next send sequence as its sequence and
    the timeout height and timestamp of the call. *)
Theorem Transmit_frame_and_packet
    (ctx : Context W) (packetData : IbcPostPacketData)
    (sourcePort sourceChannel : string)
    (timeoutHeight : Height) (timeoutTimestamp : N)
    (sourceChannelEnd : Channel) (seq : N) (channelCap : Capability) :
  types.GetChannel (ChannelKeeper k) (world ctx) sourcePort sourceChannel
    = Some sourceChannelEnd ->
  types.GetNextSequenceSend (ChannelKeeper k) (world ctx)
    sourcePort sourceChannel = Some seq ->
  types.GetCapability (ScopedKeeper k) (world ctx)
    (ChannelCapabilityPath sourcePort sourceChannel) = Some channelCap ->
  let r := Transmit ctx packetData sourcePort sourceChannel
             timeoutHeight timeoutTimestamp in
  posts (fst r) = posts ctx /\
  sentPosts (fst r) = sentPosts ctx /\
  timedoutPosts (fst r) = timedoutPosts ctx /\
  (forall packetBytes, GetBytes packetData = inl packetBytes ->
   exists packet,
     (world (fst r), snd r) =
       types.SendPacket (ChannelKeeper k) (world ctx) channelCap packet /\
     SourcePort packet = sourcePort /\
     SourceChannel packet = sourceChannel /\
     DestinationPort packet = GetPortID (GetCounterparty sourceChannelEnd) /\
     DestinationChannel packet
       = GetChannelID (GetCounterparty sourceChannelEnd) /\
     Sequence packet = seq /\
     TimeoutHeight packet = timeoutHeight /\
     TimeoutTimestamp packet = timeoutTimestamp /\
     Data packet = packetBytes).
Proof.
  intros Hch Hseq Hcap r.
  destruct (Transmit_stores ctx packetData sourcePort sourceChannel
              timeoutHeight timeoutTimestamp) as (Hp & Hs & Ht).
  repeat (split; [assumption |]).
  intros packetBytes Hbz.
  exists (NewPacket packetBytes seq sourcePort sourceChannel
            (GetPortID (GetCounterparty sourceChannelEnd))
            (GetChannelID (GetCounterparty sourceChannelEnd))
            timeoutHeight timeoutTimestamp).
  split.
  - subst r. unfold TransmitIbcPostPacket.
    rewrite Hch, Hseq, Hcap, Hbz.
    destruct (types.SendPacket _ _ _ _) as [w' [err |]]; reflexivity.
  - repeat split.
Qed.

End Transmitter.

(** The five ways a transmission ends, on a transport with three channels:
    an unknown channel, a channel without a send sequence, a channel whose
    capability the module does not hold, a payload that does not encode,
    and a packet that the transport refuses or takes. *)
Lemma Transmit_failures_in_order_witness :
  Fake.Transmit Fake.ctx0 Fake.alice "blog" "channel-9" Fake.height 0 =
    (Fake.ctx0,
     Some (Wrap Fake.ErrChannelNotFound
             "port ID (blog) channel ID (channel-9)")) /\
  Fake.Transmit Fake.ctx0 Fake.alice "blog" "channel-1" Fake.height 0 =
    (Fake.ctx0,
     Some (Wrap Fake.ErrSequenceSendNotFound
             "source port: blog, source channel: channel-1")) /\
  Fake.Transmit Fake.ctx0 Fake.alice "blog" "channel-2" Fake.height 0 =
    (Fake.ctx0,
     Some (Wrap Fake.ErrChannelCapabilityNotFound
             "module does not own channel capability")) /\
  Fake.Transmit Fake.ctx0 Fake.silent "blog" "channel-0" Fake.height 0 =
    (Fake.ctx0,
     Some (Wrap Fake.ErrJSONMarshal
             "cannot marshal the packet: nothing to encode")) /\
  snd (Fake.Transmit Fake.ctx_full Fake.alice "blog" "channel-0"
         Fake.height 0) = Some Fake.ErrFull /\
  snd (Fake.Transmit Fake.ctx0 Fake.alice "blog" "channel-0"
         Fake.height 0) = None.
Proof.
  pose proof (fun ctx data channel =>
    @Transmit_failures_in_order Fake.World Fake.keeper
      Fake.ChannelCapabilityPath Fake.ErrChannelNotFound
      Fake.ErrSequenceSendNotFound Fake.ErrChannelCapabilityNotFound
      Fake.ErrJSONMarshal Fake.GetBytes ctx data "blog" channel
      Fake.height 0%N) as T.
  split.
  { destruct (T Fake.ctx0 Fake.alice "channel-9") as (H & _).
    exact (H eq_refl). }
  split.
  { destruct (T Fake.ctx0 Fake.alice "channel-1") as (_ & H & _).
    apply H; [discriminate | reflexivity]. }
  split.
  { destruct (T Fake.ctx0 Fake.alice "channel-2") as (_ & _ & H & _).
    apply H; [discriminate | discriminate | reflexivity]. }
  split.
  { destruct (T Fake.ctx0 Fake.silent "channel-0") as (_ & _ & _ & H & _).
    apply (H ltac:(discriminate) ltac:(discriminate) ltac:(discriminate)
             (errors_New "nothing to encode")).
    reflexivity. }
  split.
  { destruct (T Fake.ctx_full Fake.alice "channel-0") as (_ & _ & _ & _ & H).
    exact (f_equal snd (H _ _ _ _ eq_refl eq_refl eq_refl eq_refl)). }
  { destruct (T Fake.ctx0 Fake.alice "channel-0") as (_ & _ & _ & _ & H).
    exact (f_equal snd (H _ _ _ _ eq_refl eq_refl eq_refl eq_refl)). }
Defined.

(** A transmission on blog/channel-0: the stores stay empty and the packet
    in the outbox of the transport is the one the call describes. *)
Lemma Transmit_frame_and_packet_witness :
  types.GetChannel (ChannelKeeper Fake.keeper) (world Fake.ctx0)
    "blog" "channel-0"
    = Some {| GetCounterparty :=
                {| GetPortID := "blog"; GetChannelID := "channel-7" |} |} /\
  types.GetNextSequenceSend (ChannelKeeper Fake.keeper) (world Fake.ctx0)
    "blog" "channel-0" = Some 1%N /\
  types.GetCapability (ScopedKeeper Fake.keeper) (world Fake.ctx0)
    (Fake.ChannelCapabilityPath "blog" "channel-0")
    = Some {| Index := 4 |} /\
  posts (fst (Fake.Transmit Fake.ctx0 Fake.alice "blog" "channel-0"
                Fake.height 9)) = Store_empty /\
  sentPosts (fst (Fake.Transmit Fake.ctx0 Fake.alice "blog" "channel-0"
                    Fake.height 9)) = Store_empty /\
  timedoutPosts (fst (Fake.Transmit Fake.ctx0 Fake.alice "blog" "channel-0"
                        Fake.height 9)) = Store_empty /\
  exists packet,
    Fake.outbox (world (fst (Fake.Transmit Fake.ctx0 Fake.alice
                               "blog" "channel-0" Fake.height 9)))
      = [({| Index := 4 |}, packet)] /\
    SourcePort packet = "blog" /\ SourceChannel packet = "channel-0" /\
    DestinationPort packet = "blog" /\
    DestinationChannel packet = "channel-7" /\
    Sequence packet = 1%N /\
    TimeoutHeight packet = Fake.height /\ TimeoutTimestamp packet = 9%N.
Proof.
  destruct (@Transmit_frame_and_packet Fake.World Fake.keeper
              Fake.ChannelCapabilityPath Fake.ErrChannelNotFound
              Fake.ErrSequenceSendNotFound Fake.ErrChannelCapabilityNotFound
              Fake.ErrJSONMarshal Fake.GetBytes
              Fake.ctx0 Fake.alice "blog" "channel-0" Fake.height 9%N
              _ _ _ eq_refl eq_refl eq_refl)
    as (Hp & Hs & Ht & Hpacket).
  do 3 (split; [reflexivity |]).
  split; [exact Hp |].
  split; [exact Hs |].
  split; [exact Ht |].
  destruct (Hpacket _ eq_refl)
    as (packet & Hsend & Hsp & Hsc & Hdp & Hdc & Hseq & Hth & Htt & _).
  exists packet.
  split.
  - apply (f_equal (fun p => Fake.outbox (fst p))) in Hsend.
    exact Hsend.
  - repeat split; assumption.
Defined.

(** ** The two reconcilers together *)

Section ReconcilerSequences.

Variable W : Type.
Variable UnmarshalJSON : bytes -> IbcPostPacketAck + error.
Variable packet : Packet.
Variable data : IbcPostPacketData.

(** One call extends each of the two stores by the record it appends, if
    it appends one there, and by nothing else. *)
Lemma reconcile_extends (ctx : Context W) (call : ReconcilerCall) :
  exists (sent : list (N * SentPost)) (timedout : list (N * TimedoutPost)),
    entries (sentPosts (fst (reconcile UnmarshalJSON packet data ctx call)))
      = entries (sentPosts ctx) ++ sent /\
    List.length sent
      = (if appends_SentPost UnmarshalJSON call then 1 else 0) /\
    entries (timedoutPosts
               (fst (reconcile UnmarshalJSON packet data ctx call)))
      = entries (timedoutPosts ctx) ++ timedout /\
    List.length timedout = (if appends_TimedoutPost call then 1 else 0).
Proof.
  destruct call as [ack |]; simpl.
  - unfold OnAcknowledgementIbcPostPacket.
    destruct (Response ack) as [msg | result |]; simpl.
    + exists [], []. now rewrite !app_nil_r.
    + destruct (UnmarshalJSON result) as [packetAck | err]; simpl.
      * eexists [_], []. now rewrite app_nil_r.
      * exists [], []. now rewrite !app_nil_r.
    + exists [], []. now rewrite !app_nil_r.
  - eexists [], [_]. now rewrite app_nil_r.
Qed.

(** A sequence of calls extends the two stores by one record for each call
    that appends one; what was in a store stays, in its place. *)
Lemma reconcile_all_extends (calls : list ReconcilerCall) (ctx : Context W) :
  exists (sent : list (N * SentPost)) (timedout : list (N * TimedoutPost)),
    entries (sentPosts (reconcile_all UnmarshalJSON packet data ctx calls))
      = entries (sentPosts ctx) ++ sent /\
    List.length sent
      = List.length (filter (appends_SentPost UnmarshalJSON) calls) /\
    entries (timedoutPosts
               (reconcile_all UnmarshalJSON packet data ctx calls))
      = entries (timedoutPosts ctx) ++ timedout /\
    List.length timedout
      = List.length (filter appends_TimedoutPost calls).
Proof.
  revert ctx. induction calls as [| call calls IH]; intros ctx.
  - exists [], []. simpl. now rewrite !app_nil_r.
  - destruct (reconcile_extends ctx call) as (s1 & t1 & Hs1 & Ls1 & Ht1 & Lt1).
    destruct (IH (fst (reconcile UnmarshalJSON packet data ctx call)))
      as (s2 & t2 & Hs2 & Ls2 & Ht2 & Lt2).
    exists (s1 ++ s2), (t1 ++ t2). simpl reconcile_all.
    rewrite Hs2, Hs1, Ht2, Ht1, <- !app_assoc, !length_app, Ls1, Ls2, Lt1, Lt2.
    repeat split; simpl filter.
    + destruct (appends_SentPost UnmarshalJSON call); reflexivity.
    + destruct (appends_TimedoutPost call); reflexivity.
Qed.

Lemma records_created_count (calls : list ReconcilerCall) (ctx : Context W) :
  records_created ctx (reconcile_all UnmarshalJSON packet data ctx calls) =
    List.length (filter (appends_SentPost UnmarshalJSON) calls)
    + List.length (filter appends_TimedoutPost calls).
Proof.
  destruct (reconcile_all_extends calls ctx) as (s & t & Hs & Ls & Ht & Lt).
  unfold records_created.
  now rewrite (created_app _ _ _ Hs), (created_app _ _ _ Ht), Ls, Lt.
Qed.

Lemma appends_exclusive (call : ReconcilerCall) :
  appends_SentPost UnmarshalJSON call && appends_TimedoutPost call = false.
Proof. destruct call; simpl; [apply andb_false_r | reflexivity]. Qed.

Lemma appends_le_calls (calls : list ReconcilerCall) :
  List.length (filter (appends_SentPost UnmarshalJSON) calls)
  + List.length (filter appends_TimedoutPost calls) <= List.length calls.
Proof.
  induction calls as [| call calls IH]; simpl; [lia |].
  pose proof (appends_exclusive call) as Hex.
  destruct (appends_SentPost UnmarshalJSON call);
    destruct (appends_TimedoutPost call); simpl in *; try discriminate; lia.
Qed.

(** One call leaves in each of the two stores the record that is its own,
    behind what was there; it does not touch the post store. *)
Lemma reconcile_records (ctx : Context W) (call : ReconcilerCall) :
  exists (sent : list (N * SentPost)) (timedout : list (N * TimedoutPost)),
    entries (sentPosts (fst (reconcile UnmarshalJSON packet data ctx call)))
      = entries (sentPosts ctx) ++ sent /\
    map snd sent = SentPosts_of UnmarshalJSON packet data call /\
    entries (timedoutPosts
               (fst (reconcile UnmarshalJSON packet data ctx call)))
      = entries (timedoutPosts ctx) ++ timedout /\
    map snd timedout = TimedoutPosts_of packet data call /\
    posts (fst (reconcile UnmarshalJSON packet data ctx call)) = posts ctx.
Proof.
  destruct call as [ack |]; simpl.
  - unfold OnAcknowledgementIbcPostPacket.
    destruct (Response ack) as [msg | result |]; simpl.
    + exists [], []. now rewrite !app_nil_r.
    + destruct (UnmarshalJSON result) as [packetAck | err]; simpl.
      * eexists [_], []. rewrite app_nil_r. repeat split.
      * exists [], []. now rewrite !app_nil_r.
    + exists [], []. now rewrite !app_nil_r.
  - eexists [], [_]. rewrite app_nil_r. repeat split.
Qed.

Lemma reconcile_all_records (calls : list ReconcilerCall) (ctx : Context W) :
  exists (sent : list (N * SentPost)) (timedout : list (N * TimedoutPost)),
    entries (sentPosts (reconcile_all UnmarshalJSON packet data ctx calls))
      = entries (sentPosts ctx) ++ sent /\
    map snd sent = flat_map (SentPosts_of UnmarshalJSON packet data) calls /\
    entries (timedoutPosts
               (reconcile_all UnmarshalJSON packet data ctx calls))
      = entries (timedoutPosts ctx) ++ timedout /\
    map snd timedout = flat_map (TimedoutPosts_of packet data) calls /\
    posts (reconcile_all UnmarshalJSON packet data ctx calls) = posts ctx.
Proof.
  revert ctx. induction calls as [| call calls IH]; intros ctx.
  - exists [], []. simpl. now rewrite !app_nil_r.
  - destruct (reconcile_records ctx call)
      as (s1 & t1 & Hs1 & Ms1 & Ht1 & Mt1 & Hp1).
    destruct (IH (fst (reconcile UnmarshalJSON packet data ctx call)))
      as (s2 & t2 & Hs2 & Ms2 & Ht2 & Mt2 & Hp2).
    exists (s1 ++ s2), (t1 ++ t2). simpl reconcile_all. simpl flat_map.
    rewrite Hs2, Hs1, Ht2, Ht1, Hp2, Hp1, <- !app_assoc, !map_app.
    rewrite Ms1, Ms2, Mt1, Mt2. repeat split.
Qed.

(** C2, as the code has it.  The reconcilers keep nothing about the packets
    they have seen.  Of a sequence of calls for a packet, every timeout
    leaves its TimedoutPost in the timed-out store and every result
    acknowledgement that decodes leaves its SentPost in the sent-post
    store, in the order of the calls and behind what the stores held: the
    record of an earlier call stays when a later call is made, and nothing
    else is recorded.  So at most one record comes of a packet when the
    transport calls back at most once for it, which is what the transport
    promises. *)
Theorem reconcilers_one_record_per_call
    (calls : list ReconcilerCall) (ctx : Context W) :
  let after := reconcile_all UnmarshalJSON packet data ctx calls in
  (exists sent timedout,
     entries (sentPosts after) = entries (sentPosts ctx) ++ sent /\
     map snd sent
       = flat_map (SentPosts_of UnmarshalJSON packet data) calls /\
     entries (timedoutPosts after) = entries (timedoutPosts ctx) ++ timedout /\
     map snd timedout = flat_map (TimedoutPosts_of packet data) calls) /\
  List.length (created (sentPosts ctx) (sentPosts after))
    = List.length (filter (appends_SentPost UnmarshalJSON) calls) /\
  List.length (created (timedoutPosts ctx) (timedoutPosts after))
    = List.length (filter appends_TimedoutPost calls) /\
  posts after = posts ctx /\
  records_created ctx after =
    List.length (filter (appends_SentPost UnmarshalJSON) calls)
    + List.length (filter appends_TimedoutPost calls) /\
  (List.length calls <= 1 -> at_most_one_record ctx after).
Proof.
  intros after. subst after.
  destruct (reconcile_all_records calls ctx)
    as (s & t & Hs & Ms & Ht & Mt & Hp).
  destruct (reconcile_all_extends calls ctx)
    as (s' & t' & Hs' & Ls' & Ht' & Lt').
  split; [now exists s, t |].
  split; [now rewrite (created_app _ _ _ Hs') |].
  split; [now rewrite (created_app _ _ _ Ht') |].
  split; [exact Hp |].
  split; [apply records_created_count |].
  intros Hlen. unfold at_most_one_record.
  rewrite records_created_count.
  pose proof (appends_le_calls calls). lia.
Qed.

End ReconcilerSequences.

(** One timeout for carol's packet: one record, carol's TimedoutPost. *)
Lemma reconcilers_one_record_per_call_witness :
  List.length [Call_OnTimeout] <= 1 /\
  at_most_one_record Fake.ctx0
    (reconcile_all Fake.UnmarshalJSON Fake.packet_carol Fake.carol
       Fake.ctx0 [Call_OnTimeout]) /\
  created (timedoutPosts Fake.ctx0)
    (timedoutPosts
       (reconcile_all Fake.UnmarshalJSON Fake.packet_carol Fake.carol
          Fake.ctx0 [Call_OnTimeout])) =
    [(0%N, {| TimedoutPost_Title := "X"; TimedoutPost_Creator := "carol";
              TimedoutPost_Chain := "post-channel-2" |})] /\
  created (sentPosts Fake.ctx0)
    (sentPosts
       (reconcile_all Fake.UnmarshalJSON Fake.packet_carol Fake.carol
          Fake.ctx0 [Call_OnTimeout])) = [].
Proof.
  split; [apply le_n |].
  destruct (@reconcilers_one_record_per_call Fake.World Fake.UnmarshalJSON
              Fake.packet_carol Fake.carol [Call_OnTimeout] Fake.ctx0)
    as (_ & _ & _ & _ & _ & Hone).
  split; [exact (Hone (le_n 1)) |].
  split; reflexivity.
Defined.

(** C2 fails as stated.  An acknowledgement and then a timeout for bob's
    packet leave a SentPost and a TimedoutPost of it; two timeouts leave two
    TimedoutPosts. *)
Lemma reconcilers_not_exclusive :
  entries (sentPosts
             (reconcile_all Fake.UnmarshalJSON Fake.packet_bob Fake.bob
                Fake.ctx0
                [Call_OnAcknowledgement Fake.ack_7; Call_OnTimeout])) =
    [(0%N, {| SentPost_Creator := "bob"; SentPost_PostID := "7";
              SentPost_Title := "Hi"; SentPost_Chain := "post-channel-1" |})] /\
  entries (timedoutPosts
             (reconcile_all Fake.UnmarshalJSON Fake.packet_bob Fake.bob
                Fake.ctx0
                [Call_OnAcknowledgement Fake.ack_7; Call_OnTimeout])) =
    [(0%N, {| TimedoutPost_Title := "Hi"; TimedoutPost_Creator := "bob";
              TimedoutPost_Chain := "post-channel-1" |})] /\
  ~ at_most_one_record Fake.ctx0
      (reconcile_all Fake.UnmarshalJSON Fake.packet_bob Fake.bob Fake.ctx0
         [Call_OnAcknowledgement Fake.ack_7; Call_OnTimeout]) /\
  ~ at_most_one_record Fake.ctx0
      (reconcile_all Fake.UnmarshalJSON Fake.packet_bob Fake.bob Fake.ctx0
         [Call_OnTimeout; Call_OnTimeout]).
Proof.
  split; [reflexivity |].
  split; [reflexivity |].
  unfold at_most_one_record.
  split; vm_compute; lia.
Qed.

(** * Further properties of the callbacks *)

(** ** Strings *)

Lemma string_append_assoc (a b c : string) :
  (a +s b) +s c = a +s (b +s c).
Proof. induction a as [| x a IH]; simpl; [reflexivity | now rewrite IH]. Qed.

Lemma string_length_append (a b : string) :
  String.length (a +s b) = String.length a + String.length b.
Proof. induction a as [| x a IH]; simpl; [reflexivity | now rewrite IH]. Qed.

Lemma string_append_inv_head (a b c : string) :
  a +s b = a +s c -> b = c.
Proof.
  induction a as [| x a IH]; simpl; intros H; [assumption |].
  injection H as H. now apply IH.
Qed.

(** The decimal string of a number is never empty. *)
Lemma FormatUint_10_nonempty (i : N) : FormatUint_10 i <> "".
Proof.
  unfold FormatUint_10.
  assert (Hnil : N.to_uint i <> Nil).
  { destruct i as [| p]; simpl; [discriminate |].
    apply DecimalPos.Unsigned.to_uint_nonnil. }
  destruct (N.to_uint i); simpl; congruence.
Qed.

(** ** Any run of callbacks *)

Section Runs.

Variable W : Type.
Variable m : Wiring W.

(** X1.  Whatever callbacks run, in whatever order and with whatever
    arguments, the three stores only grow at their end: the entries they
    had stay in place, and each store gains exactly one entry for each
    call that appends to it (a receive that passes validation, a result
    acknowledgement that decodes, a timeout).  A transmission appends
    nothing. *)
Theorem handle_all_append_only (calls : list Callback) (ctx : Context W) :
  exists (newPosts : list (N * Post)) (newSent : list (N * SentPost))
         (newTimedout : list (N * TimedoutPost)),
    entries (posts (handle_all m ctx calls))
      = entries (posts ctx) ++ newPosts /\
    List.length newPosts
      = List.length (filter (appends_to_posts m) calls) /\
    entries (sentPosts (handle_all m ctx calls))
      = entries (sentPosts ctx) ++ newSent /\
    List.length newSent
      = List.length (filter (appends_to_sentPosts m) calls) /\
    entries (timedoutPosts (handle_all m ctx calls))
      = entries (timedoutPosts ctx) ++ newTimedout /\
    List.length newTimedout
      = List.length (filter appends_to_timedoutPosts calls).
Proof.
  revert ctx. induction calls as [| call calls IH]; intros ctx.
  - exists [], [], []. simpl. now rewrite !app_nil_r.
  - destruct (IH (handle m ctx call))
      as (lp & ls & lt & Hp & Lp & Hs & Ls & Ht & Lt).
    assert (Hstep :
      exists lp1 ls1 lt1,
        entries (posts (handle m ctx call)) = entries (posts ctx) ++ lp1 /\
        List.length lp1 = (if appends_to_posts m call then 1 else 0) /\
        entries (sentPosts (handle m ctx call))
          = entries (sentPosts ctx) ++ ls1 /\
        List.length ls1 = (if appends_to_sentPosts m call then 1 else 0) /\
        entries (timedoutPosts (handle m ctx call))
          = entries (timedoutPosts ctx) ++ lt1 /\
        List.length lt1 = (if appends_to_timedoutPosts call then 1 else 0)).
    { destruct call as [d sp sc th ts | p d | p d ack | p d]; simpl.
      - destruct (Transmit_stores (wired_keeper m)
                    (wired_ChannelCapabilityPath m)
                    (wired_ErrChannelNotFound m)
                    (wired_ErrSequenceSendNotFound m)
                    (wired_ErrChannelCapabilityNotFound m)
                    (wired_ErrJSONMarshal m)
                    (wired_GetBytes m) ctx d sp sc th ts) as (Ep & Es & Et).
        unfold wired_Transmit. rewrite Ep, Es, Et.
        exists [], [], []. now rewrite !app_nil_r.
      - unfold OnRecvIbcPostPacket.
        destruct (ValidateBasic _ d); simpl.
        + exists [], [], []. now rewrite !app_nil_r.
        + eexists [_], [], []. now rewrite !app_nil_r.
      - unfold OnAcknowledgementIbcPostPacket.
        destruct (Response ack) as [msg | result |]; simpl.
        + exists [], [], []. now rewrite !app_nil_r.
        + destruct (wired_UnmarshalJSON m result); simpl.
          * eexists [], [_], []. now rewrite !app_nil_r.
          * exists [], [], []. now rewrite !app_nil_r.
        + exists [], [], []. now rewrite !app_nil_r.
      - eexists [], [], [_]. now rewrite !app_nil_r. }
    destruct Hstep as (lp1 & ls1 & lt1 & Hp1 & Lp1 & Hs1 & Ls1 & Ht1 & Lt1).
    exists (lp1 ++ lp), (ls1 ++ ls), (lt1 ++ lt). simpl handle_all.
    rewrite Hp, Hp1, Hs, Hs1, Ht, Ht1, <- !app_assoc, !length_app.
    rewrite Lp, Lp1, Ls, Ls1, Lt, Lt1. simpl filter.
    destruct (appends_to_posts m call);
      destruct (appends_to_sentPosts m call);
      destruct (appends_to_timedoutPosts call); repeat split.
Qed.

(** The next id of the post store after a call: one more, as a [uint64],
    after a receive that passes validation, and what it was after any other
    call. *)
Lemma handle_nextId (ctx : Context W) (call : Callback) :
  nextId (posts (handle m ctx call)) =
    if appends_to_posts m call then uint64_succ (nextId (posts ctx))
    else nextId (posts ctx).
Proof.
  destruct call as [d sp sc th ts | p d | p d ack | p d]; simpl.
  - destruct (Transmit_stores (wired_keeper m) (wired_ChannelCapabilityPath m)
                (wired_ErrChannelNotFound m) (wired_ErrSequenceSendNotFound m)
                (wired_ErrChannelCapabilityNotFound m) (wired_ErrJSONMarshal m)
                (wired_GetBytes m) ctx d sp sc th ts) as (Hp & _).
    unfold wired_Transmit. now rewrite Hp.
  - unfold OnRecvIbcPostPacket.
    destruct (ValidateBasic _ d); reflexivity.
  - unfold OnAcknowledgementIbcPostPacket.
    destruct (Response ack) as [msg | result |]; simpl; try reflexivity.
    destruct (wired_UnmarshalJSON m result); reflexivity.
  - reflexivity.
Qed.

Lemma uint64_succ_small (id : N) :
  (N.succ id < uint64_modulus)%N -> uint64_succ id = N.succ id.
Proof. intros H. unfold uint64_succ. now apply N.mod_small. Qed.

(** As long as the counter does not reach 2^64, the next id of the post
    store after a run is the next id before it plus the number of receives
    that passed validation. *)
Lemma handle_all_nextId (calls : list Callback) (ctx : Context W) :
  (nextId (posts ctx)
   + N.of_nat (List.length (filter (appends_to_posts m) calls))
   < uint64_modulus)%N ->
  nextId (posts (handle_all m ctx calls)) =
    (nextId (posts ctx)
     + N.of_nat (List.length (filter (appends_to_posts m) calls)))%N.
Proof.
  revert ctx. induction calls as [| call calls IH]; intros ctx Hbound.
  - simpl. lia.
  - simpl handle_all. simpl filter in *.
    pose proof (handle_nextId ctx call) as Hstep.
    destruct (appends_to_posts m call).
    + simpl List.length in *.
      rewrite uint64_succ_small in Hstep by lia.
      rewrite IH; rewrite Hstep; lia.
    + rewrite IH; rewrite Hstep; [reflexivity | exact Hbound].
Qed.

(** X3.  The post ids that receives return go up, as long as the [uint64]
    counter of the post store does not go round.  When the next id and the
    receives still to come stay below 2^64, a receive that passes
    validation returns the decimal string of a smaller id than any later
    receive that passes, whatever callbacks run in between; so the two
    PostIDs differ. *)
Theorem OnRecv_ids_increase
    (ctx : Context W) (calls : list Callback)
    (packet1 packet2 : Packet) (data1 data2 : IbcPostPacketData) :
  ValidateBasic (wired_ValidationError m) data1 = None ->
  ValidateBasic (wired_ValidationError m) data2 = None ->
  (nextId (posts ctx)
   + N.of_nat (List.length (filter (appends_to_posts m) calls)) + 1
   < uint64_modulus)%N ->
  let first :=
    OnRecvIbcPostPacket (wired_ValidationError m) ctx packet1 data1 in
  let second :=
    OnRecvIbcPostPacket (wired_ValidationError m)
      (handle_all m (fst first) calls) packet2 data2 in
  exists id1 id2,
    PostID (fst (snd first)) = FormatUint_10 id1 /\
    PostID (fst (snd second)) = FormatUint_10 id2 /\
    (id1 < id2)%N /\
    (id2 < uint64_modulus)%N /\
    PostID (fst (snd first)) <> PostID (fst (snd second)).
Proof.
  intros H1 H2 Hbound first second.
  assert (Hid1 : PostID (fst (snd first)) = FormatUint_10 (nextId (posts ctx))).
  { subst first. unfold OnRecvIbcPostPacket. rewrite H1. reflexivity. }
  assert (Hnext : nextId (posts (fst first)) = N.succ (nextId (posts ctx))).
  { subst first. unfold OnRecvIbcPostPacket. rewrite H1.
    unfold AppendPost. simpl. apply uint64_succ_small. lia. }
  assert (Hid2 : PostID (fst (snd second))
                 = FormatUint_10
                     (nextId (posts (handle_all m (fst first) calls)))).
  { subst second. unfold OnRecvIbcPostPacket at 1. rewrite H2. reflexivity. }
  assert (Hafter :
    nextId (posts (handle_all m (fst first) calls)) =
      (N.succ (nextId (posts ctx))
       + N.of_nat (List.length (filter (appends_to_posts m) calls)))%N).
  { rewrite handle_all_nextId; rewrite Hnext; [reflexivity | lia]. }
  exists (nextId (posts ctx)),
         (nextId (posts (handle_all m (fst first) calls))).
  rewrite Hid1, Hid2, Hafter.
  repeat split; try lia.
  intros Heq. apply FormatUint_10_inj in Heq. lia.
Qed.

End Runs.

Lemma OnRecv_ids_increase_witness :
  ValidateBasic Fake.ValidationError Fake.alice = None /\
  ValidateBasic Fake.ValidationError Fake.bob = None /\
  (nextId (posts Chains.ctxB)
   + N.of_nat (List.length
                 (filter (appends_to_posts Chains.wiring) Chains.busy_day))
   + 1 < uint64_modulus)%N /\
  PostID (fst (snd (OnRecvIbcPostPacket Fake.ValidationError Chains.ctxB
                      Fake.packet_in Fake.alice))) = "3" /\
  PostID (fst (snd (OnRecvIbcPostPacket Fake.ValidationError
                      (handle_all Chains.wiring
                         (fst (OnRecvIbcPostPacket Fake.ValidationError
                                 Chains.ctxB Fake.packet_in Fake.alice))
                         Chains.busy_day)
                      Fake.packet_in Fake.bob))) = "6" /\
  PostID (fst (snd (OnRecvIbcPostPacket Fake.ValidationError Chains.ctxB
                      Fake.packet_in Fake.alice))) <>
  PostID (fst (snd (OnRecvIbcPostPacket Fake.ValidationError
                      (handle_all Chains.wiring
                         (fst (OnRecvIbcPostPacket Fake.ValidationError
                                 Chains.ctxB Fake.packet_in Fake.alice))
                         Chains.busy_day)
                      Fake.packet_in Fake.bob))).
Proof.
  assert (Hbound :
    (nextId (posts Chains.ctxB)
     + N.of_nat (List.length
                   (filter (appends_to_posts Chains.wiring) Chains.busy_day))
     + 1 < uint64_modulus)%N) by reflexivity.
  do 2 (split; [reflexivity |]).
  split; [exact Hbound |].
  do 2 (split; [reflexivity |]).
  destruct (@OnRecv_ids_increase Fake.World Chains.wiring Chains.ctxB
              Chains.busy_day Fake.packet_in Fake.packet_in
              Fake.alice Fake.bob eq_refl eq_refl Hbound)
    as (id1 & id2 & _ & _ & _ & _ & Hneq).
  exact Hneq.
Defined.

(** ** The receiver, further *)

Section ReceiverFurther.

Variable W : Type.
Variable ValidationError : error.

(** X4.  OnRecvIbcPostPacket returns an empty PostID exactly when it
    returns an error: on a validation failure the acknowledgement is the
    zero value, and the decimal string of an id is never empty. *)
Theorem OnRecv_PostID_empty_iff_error
    (ctx : Context W) (packet : Packet) (data : IbcPostPacketData) :
  snd (snd (OnRecvIbcPostPacket ValidationError ctx packet data)) <> None <->
  PostID (fst (snd (OnRecvIbcPostPacket ValidationError ctx packet data)))
    = "".
Proof.
  unfold OnRecvIbcPostPacket.
  destruct (ValidateBasic ValidationError data) as [err |]; simpl.
  - split; [reflexivity | discriminate].
  - split.
    + intros H. now elim H.
    + intros H. now apply FormatUint_10_nonempty in H.
Qed.

(** The creator of the post that a receive appends. *)
Lemma OnRecv_created_creators
    (ctx : Context W) (packet : Packet) (data : IbcPostPacketData) :
  ValidateBasic ValidationError data = None ->
  created_creators (posts ctx)
    (posts (fst (OnRecvIbcPostPacket ValidationError ctx packet data)))
  = [SourcePort packet +s "-" +s SourceChannel packet +s "-"
       +s Creator data].
Proof.
  intros Hvalid. unfold created_creators, OnRecvIbcPostPacket.
  rewrite Hvalid. unfold AppendPost. simpl.
  erewrite created_app; [| reflexivity]. reflexivity.
Qed.

(** X5.  The creator recorded by a receive is never the creator of the
    payload: it is that creator behind a mark that is not empty, longer by
    the lengths of the source port and channel and the two dashes. *)
Theorem OnRecv_creator_marked
    (ctx : Context W) (packet : Packet) (data : IbcPostPacketData) :
  ValidateBasic ValidationError data = None ->
  exists creator mark,
    created_creators (posts ctx)
      (posts (fst (OnRecvIbcPostPacket ValidationError ctx packet data)))
    = [creator] /\
    creator = mark +s Creator data /\
    mark <> "" /\
    creator <> Creator data /\
    String.length creator =
      String.length (SourcePort packet) + String.length (SourceChannel packet)
      + String.length (Creator data) + 2.
Proof.
  intros Hvalid.
  exists (SourcePort packet +s "-" +s SourceChannel packet +s "-"
            +s Creator data),
         (SourcePort packet +s "-" +s SourceChannel packet +s "-").
  assert (Hlen :
    String.length (SourcePort packet +s "-" +s SourceChannel packet +s "-"
                     +s Creator data) =
    String.length (SourcePort packet) + String.length (SourceChannel packet)
    + String.length (Creator data) + 2).
  { rewrite !string_length_append. simpl. lia. }
  split; [now apply OnRecv_created_creators |].
  split; [reflexivity |].
  split.
  - intros Hmark. apply (f_equal String.length) in Hmark.
    rewrite !string_length_append in Hmark. simpl in Hmark. lia.
  - split; [| exact Hlen].
    intros Heq. rewrite Heq in Hlen. lia.
Qed.

(** X6.  Over one source port and channel the recorded creator tells the
    creators of the payloads apart: receives of payloads with different
    creators record different creators, whatever the contexts. *)
Theorem OnRecv_creator_injective_on_channel
    (ctx1 ctx2 : Context W) (packet1 packet2 : Packet)
    (data1 data2 : IbcPostPacketData) :
  ValidateBasic ValidationError data1 = None ->
  ValidateBasic ValidationError data2 = None ->
  SourcePort packet1 = SourcePort packet2 ->
  SourceChannel packet1 = SourceChannel packet2 ->
  Creator data1 <> Creator data2 ->
  created_creators (posts ctx1)
    (posts (fst (OnRecvIbcPostPacket ValidationError ctx1 packet1 data1)))
  <>
  created_creators (posts ctx2)
    (posts (fst (OnRecvIbcPostPacket ValidationError ctx2 packet2 data2))).
Proof.
  intros H1 H2 Hport Hchannel Hneq Heq.
  rewrite (OnRecv_created_creators ctx1 packet1 data1 H1) in Heq.
  rewrite (OnRecv_created_creators ctx2 packet2 data2 H2) in Heq.
  rewrite Hport, Hchannel in Heq. injection Heq as Heq.
  apply string_append_inv_head in Heq. contradiction.
Qed.

(** X7.  The recorded creator does not tell the source port from the
    source channel when they hold dashes: a packet from port a-b and
    channel c and a packet from port a and channel b-c make the receiver
    return and record the same. *)
Theorem OnRecv_port_channel_ambiguous
    (ctx : Context W) (packet1 packet2 : Packet) (data : IbcPostPacketData)
    (a b c : string) :
  SourcePort packet1 = a +s "-" +s b ->
  SourceChannel packet1 = c ->
  SourcePort packet2 = a ->
  SourceChannel packet2 = b +s "-" +s c ->
  OnRecvIbcPostPacket ValidationError ctx packet1 data =
  OnRecvIbcPostPacket ValidationError ctx packet2 data.
Proof.
  intros Hp1 Hc1 Hp2 Hc2. unfold OnRecvIbcPostPacket.
  rewrite Hp1, Hc1, Hp2, Hc2.
  destruct (ValidateBasic ValidationError data); [reflexivity |].
  replace (a +s "-" +s b +s "-" +s c +s "-" +s Creator data)
    with (a +s "-" +s (b +s "-" +s c) +s "-" +s Creator data);
    [reflexivity |].
  now rewrite !string_append_assoc.
Qed.

End ReceiverFurther.

Lemma OnRecv_creator_marked_witness :
  ValidateBasic Fake.ValidationError Fake.alice = None /\
  exists creator mark,
    created_creators (posts Chains.ctxB)
      (posts (fst (OnRecvIbcPostPacket Fake.ValidationError Chains.ctxB
                     Fake.packet_in Fake.alice))) = [creator] /\
    creator = mark +s "alice" /\
    creator <> "alice" /\
    String.length creator = 20.
Proof.
  split; [reflexivity |].
  destruct (@OnRecv_creator_marked Fake.World Fake.ValidationError Chains.ctxB
              Fake.packet_in Fake.alice eq_refl)
    as (creator & mark & Hcreated & Hmark & _ & Hneq & Hlen).
  exists creator, mark.
  split; [exact Hcreated |].
  split; [exact Hmark |].
  split; [exact Hneq | exact Hlen].
Defined.

Lemma OnRecv_creator_injective_on_channel_witness :
  ValidateBasic Fake.ValidationError Fake.alice = None /\
  ValidateBasic Fake.ValidationError Fake.bob = None /\
  Creator Fake.alice <> Creator Fake.bob /\
  created_creators (posts Fake.ctx0)
    (posts (fst (OnRecvIbcPostPacket Fake.ValidationError Fake.ctx0
                   Fake.packet_in Fake.alice)))
  <>
  created_creators (posts Chains.ctxB)
    (posts (fst (OnRecvIbcPostPacket Fake.ValidationError Chains.ctxB
                   Fake.packet_in Fake.bob))).
Proof.
  assert (Hneq : Creator Fake.alice <> Creator Fake.bob) by discriminate.
  split; [reflexivity |].
  split; [reflexivity |].
  split; [exact Hneq |].
  exact (@OnRecv_creator_injective_on_channel Fake.World Fake.ValidationError
           Fake.ctx0 Chains.ctxB Fake.packet_in Fake.packet_in Fake.alice Fake.bob
           eq_refl eq_refl eq_refl eq_refl Hneq).
Defined.

Lemma OnRecv_port_channel_ambiguous_witness :
  SourcePort Chains.packet_split_late = "blog" +s "-" +s "x" /\
  SourceChannel Chains.packet_split_early = "x" +s "-" +s "channel-0" /\
  OnRecvIbcPostPacket Fake.ValidationError Fake.ctx0
    Chains.packet_split_late Fake.alice =
  OnRecvIbcPostPacket Fake.ValidationError Fake.ctx0
    Chains.packet_split_early Fake.alice /\
  created_creators (posts Fake.ctx0)
    (posts (fst (OnRecvIbcPostPacket Fake.ValidationError Fake.ctx0
                   Chains.packet_split_early Fake.alice)))
  = ["blog-x-channel-0-alice"].
Proof.
  split; [reflexivity |].
  split; [reflexivity |].
  split; [| reflexivity].
  exact (@OnRecv_port_channel_ambiguous Fake.World Fake.ValidationError
           Fake.ctx0 Chains.packet_split_late Chains.packet_split_early
           Fake.alice "blog" "x" "channel-0"
           eq_refl eq_refl eq_refl eq_refl).
Defined.

(** ** The callbacks side by side *)

Section SideBySide.

Variable W : Type.
Variable UnmarshalJSON : bytes -> IbcPostPacketAck + error.
Variable ValidationError : error.

(** X8.  A receive, an acknowledgement and a timeout do not get in each
    other's way: run in either order, two of them leave the same context,
    and what each returns does not depend on whether another ran before
    it. *)
Theorem callbacks_commute
    (ctx : Context W)
    (packetR : Packet) (dataR : IbcPostPacketData)
    (packetA : Packet) (dataA : IbcPostPacketData) (ack : Acknowledgement)
    (packetT : Packet) (dataT : IbcPostPacketData) :
  let recv := fun c => OnRecvIbcPostPacket ValidationError c packetR dataR in
  let acked :=
    fun c => OnAcknowledgementIbcPostPacket UnmarshalJSON c packetA dataA ack in
  let timedout := fun c => OnTimeoutIbcPostPacket c packetT dataT in
  fst (acked (fst (recv ctx))) = fst (recv (fst (acked ctx))) /\
  fst (timedout (fst (recv ctx))) = fst (recv (fst (timedout ctx))) /\
  fst (timedout (fst (acked ctx))) = fst (acked (fst (timedout ctx))) /\
  snd (recv (fst (acked ctx))) = snd (recv ctx) /\
  snd (recv (fst (timedout ctx))) = snd (recv ctx) /\
  snd (acked (fst (recv ctx))) = snd (acked ctx) /\
  snd (acked (fst (timedout ctx))) = snd (acked ctx) /\
  snd (timedout (fst (recv ctx))) = snd (timedout ctx) /\
  snd (timedout (fst (acked ctx))) = snd (timedout ctx).
Proof.
  intros recv acked timedout. subst recv acked timedout. simpl.
  unfold OnRecvIbcPostPacket, OnAcknowledgementIbcPostPacket,
    OnTimeoutIbcPostPacket.
  destruct (ValidateBasic ValidationError dataR) as [err |];
    destruct (Response ack) as [msg | result |];
    try destruct (UnmarshalJSON result) as [packetAck | err'];
    simpl; repeat split.
Qed.

(** X9.  The two reconcilers read the destination port and channel of the
    packet and the creator and title of the payload, and nothing else: the
    content of the post, the source of the packet, its sequence, its data
    and its timeouts make no difference to what they record and return. *)
Theorem reconcilers_read_only_destination_creator_title
    (ctx : Context W) (packet packet' : Packet)
    (data data' : IbcPostPacketData) (ack : Acknowledgement) :
  DestinationPort packet = DestinationPort packet' ->
  DestinationChannel packet = DestinationChannel packet' ->
  Creator data = Creator data' ->
  Title data = Title data' ->
  OnAcknowledgementIbcPostPacket UnmarshalJSON ctx packet data ack =
  OnAcknowledgementIbcPostPacket UnmarshalJSON ctx packet' data' ack /\
  OnTimeoutIbcPostPacket ctx packet data =
  OnTimeoutIbcPostPacket ctx packet' data'.
Proof.
  intros Hport Hchannel Hcreator Htitle.
  unfold OnAcknowledgementIbcPostPacket, OnTimeoutIbcPostPacket.
  rewrite Hport, Hchannel, Hcreator, Htitle. split; reflexivity.
Qed.

End SideBySide.

Lemma reconcilers_read_only_destination_creator_title_witness :
  DestinationPort Chains.packet_alice
    = DestinationPort Chains.packet_alice_later /\
  DestinationChannel Chains.packet_alice
    = DestinationChannel Chains.packet_alice_later /\
  Creator Fake.alice = Creator Chains.alice_reworded /\
  Title Fake.alice = Title Chains.alice_reworded /\
  Chains.packet_alice <> Chains.packet_alice_later /\
  Fake.alice <> Chains.alice_reworded /\
  OnAcknowledgementIbcPostPacket Fake.UnmarshalJSON Fake.ctx0
    Chains.packet_alice Fake.alice Fake.ack_7 =
  OnAcknowledgementIbcPostPacket Fake.UnmarshalJSON Fake.ctx0
    Chains.packet_alice_later Chains.alice_reworded Fake.ack_7 /\
  OnTimeoutIbcPostPacket Fake.ctx0 Chains.packet_alice Fake.alice =
  OnTimeoutIbcPostPacket Fake.ctx0
    Chains.packet_alice_later Chains.alice_reworded.
Proof.
  do 4 (split; [reflexivity |]).
  split; [discriminate |].
  split; [discriminate |].
  exact (@reconcilers_read_only_destination_creator_title Fake.World
           Fake.UnmarshalJSON Fake.ctx0
           Chains.packet_alice Chains.packet_alice_later
           Fake.alice Chains.alice_reworded Fake.ack_7
           eq_refl eq_refl eq_refl eq_refl).
Defined.

(** ** The transmitter, further *)

Section TransmitterFurther.

Variable W : Type.
Variable m : Wiring W.

(** X10.  TransmitIbcPostPacket returns no error exactly when the channel,
    its next send sequence and the capability are found, the payload
    encodes, and SendPacket returns no error for the packet built from
    them. *)
Theorem Transmit_succeeds_iff
    (ctx : Context W) (packetData : IbcPostPacketData)
    (sourcePort sourceChannel : string)
    (timeoutHeight : Height) (timeoutTimestamp : N) :
  snd (wired_Transmit m ctx packetData sourcePort sourceChannel
         timeoutHeight timeoutTimestamp) = None <->
  exists sourceChannelEnd sequence channelCap packetBytes,
    types.GetChannel (ChannelKeeper (wired_keeper m)) (world ctx)
      sourcePort sourceChannel = Some sourceChannelEnd /\
    types.GetNextSequenceSend (ChannelKeeper (wired_keeper m)) (world ctx)
      sourcePort sourceChannel = Some sequence /\
    types.GetCapability (ScopedKeeper (wired_keeper m)) (world ctx)
      (wired_ChannelCapabilityPath m sourcePort sourceChannel)
      = Some channelCap /\
    wired_GetBytes m packetData = inl packetBytes /\
    snd (types.SendPacket (ChannelKeeper (wired_keeper m)) (world ctx)
           channelCap
           (NewPacket packetBytes sequence sourcePort sourceChannel
              (GetPortID (GetCounterparty sourceChannelEnd))
              (GetChannelID (GetCounterparty sourceChannelEnd))
              timeoutHeight timeoutTimestamp)) = None.
Proof.
  unfold wired_Transmit, TransmitIbcPostPacket.
  destruct (types.GetChannel _ _ _ _) as [ch |].
  2: { split; [discriminate | intros (? & ? & ? & ? & ? & _); discriminate]. }
  destruct (types.GetNextSequenceSend _ _ _ _) as [seq |].
  2: { split; [discriminate |
               intros (? & ? & ? & ? & _ & ? & _); discriminate]. }
  destruct (types.GetCapability _ _ _) as [cap |].
  2: { split; [discriminate |
               intros (? & ? & ? & ? & _ & _ & ? & _); discriminate]. }
  destruct (wired_GetBytes m packetData) as [bz | err].
  2: { split; [discriminate |
               intros (? & ? & ? & ? & _ & _ & _ & ? & _); discriminate]. }
  split.
  - intros Hnil. exists ch, seq, cap, bz.
    repeat (split; [reflexivity |]).
    destruct (types.SendPacket _ _ _ _) as [w' [err |]];
      [discriminate | reflexivity].
  - intros (ch' & seq' & cap' & bz' & Hch & Hseq & Hcap & Hbz & Hsend).
    injection Hch as <-. injection Hseq as <-.
    injection Hcap as <-. injection Hbz as <-.
    destruct (types.SendPacket _ _ _ _) as [w' [err |]];
      [discriminate | reflexivity].
Qed.

End TransmitterFurther.

(** ** A post from one chain to another *)

Section EndToEnd.

(** The sending chain and its wiring; the receiving chain. *)
Variable WA : Type.
Variable WB : Type.
Variable m : Wiring WA.
Variable ValidationErrorB : error.

(** X11.  A post sent, received and acknowledged.  When the transmitter
    on chain A finds the channel, the sequence and the capability and
    encodes the payload, the packet it hands to SendPacket, received on
    chain B with a payload that passes validation and acknowledged on chain
    A with a result that decodes to what B's receiver returned, leaves on B
    one post whose creator is A's source port and channel and the creator
    of the payload, and on A one sent post whose PostID is the decimal
    string of the id of that post on B and whose chain is the port and
    channel of the counterparty of the channel. *)
Theorem post_sent_received_acknowledged
    (ctxA : Context WA) (ctxB : Context WB) (data : IbcPostPacketData)
    (sourcePort sourceChannel : string)
    (timeoutHeight : Height) (timeoutTimestamp : N)
    (sourceChannelEnd : Channel) (sequence : N) (channelCap : Capability)
    (packetBytes result : bytes) :
  types.GetChannel (ChannelKeeper (wired_keeper m)) (world ctxA)
    sourcePort sourceChannel = Some sourceChannelEnd ->
  types.GetNextSequenceSend (ChannelKeeper (wired_keeper m)) (world ctxA)
    sourcePort sourceChannel = Some sequence ->
  types.GetCapability (ScopedKeeper (wired_keeper m)) (world ctxA)
    (wired_ChannelCapabilityPath m sourcePort sourceChannel)
    = Some channelCap ->
  wired_GetBytes m data = inl packetBytes ->
  ValidateBasic ValidationErrorB data = None ->
  let packet :=
    NewPacket packetBytes sequence sourcePort sourceChannel
      (GetPortID (GetCounterparty sourceChannelEnd))
      (GetChannelID (GetCounterparty sourceChannelEnd))
      timeoutHeight timeoutTimestamp in
  let sent :=
    wired_Transmit m ctxA data sourcePort sourceChannel
      timeoutHeight timeoutTimestamp in
  let received := OnRecvIbcPostPacket ValidationErrorB ctxB packet data in
  wired_UnmarshalJSON m result = inl (fst (snd received)) ->
  let acked :=
    OnAcknowledgementIbcPostPacket (wired_UnmarshalJSON m) (fst sent)
      packet data {| Response := Acknowledgement_Result result |} in
  (world (fst sent), snd sent) =
    types.SendPacket (ChannelKeeper (wired_keeper m)) (world ctxA)
      channelCap packet /\
  snd (snd received) = None /\
  created (posts ctxB) (posts (fst received)) =
    [(nextId (posts ctxB),
      {| Post_Creator :=
           sourcePort +s "-" +s sourceChannel +s "-" +s Creator data;
         Post_Title := Title data;
         Post_Content := Content data |})] /\
  snd acked = None /\
  created (sentPosts ctxA) (sentPosts (fst acked)) =
    [(nextId (sentPosts ctxA),
      {| SentPost_Creator := Creator data;
         SentPost_PostID := FormatUint_10 (nextId (posts ctxB));
         SentPost_Title := Title data;
         SentPost_Chain :=
           GetPortID (GetCounterparty sourceChannelEnd) +s "-"
             +s GetChannelID (GetCounterparty sourceChannelEnd) |})].
Proof.
  intros Hch Hseq Hcap Hbz Hvalid packet sent received Hdec acked.
  assert (Hsent :
    (world (fst sent), snd sent) =
      types.SendPacket (ChannelKeeper (wired_keeper m)) (world ctxA)
        channelCap packet /\
    sentPosts (fst sent) = sentPosts ctxA).
  { subst sent packet. unfold wired_Transmit, TransmitIbcPostPacket.
    rewrite Hch, Hseq, Hcap, Hbz.
    destruct (types.SendPacket _ _ _ _) as [w' [err |]]; now split. }
  destruct Hsent as (Hsend & Hstore).
  assert (Hrecv :
    received =
      ({| world := world ctxB;
          posts := fst (Store_append (posts ctxB)
                          {| Post_Creator :=
                               sourcePort +s "-" +s sourceChannel +s "-"
                                 +s Creator data;
                             Post_Title := Title data;
                             Post_Content := Content data |});
          sentPosts := sentPosts ctxB;
          timedoutPosts := timedoutPosts ctxB |},
       ({| PostID := FormatUint_10 (nextId (posts ctxB)) |}, None))).
  { subst received packet. unfold OnRecvIbcPostPacket. rewrite Hvalid.
    reflexivity. }
  rewrite Hrecv in Hdec. simpl in Hdec.
  split; [exact Hsend |].
  split; [now rewrite Hrecv |].
  split; [rewrite Hrecv; simpl; now apply created_app |].
  subst acked. unfold OnAcknowledgementIbcPostPacket. cbn [Response].
  rewrite Hdec. unfold AppendSentPost. simpl.
  split; [reflexivity |].
  apply created_app. simpl. now rewrite Hstore.
Qed.

(** X12.  A post sent and timed out.  When the transmitter finds the
    channel, the sequence and the capability and encodes the payload, the
    timeout of the packet it handed to SendPacket leaves one timed-out post
    with the creator and title of the payload, whose chain is the port and
    channel of the counterparty of the channel that the post was sent on;
    the sent-post store is as it was before the transmission. *)
Theorem post_sent_timed_out
    (ctxA : Context WA) (data : IbcPostPacketData)
    (sourcePort sourceChannel : string)
    (timeoutHeight : Height) (timeoutTimestamp : N)
    (sourceChannelEnd : Channel) (sequence : N) (channelCap : Capability)
    (packetBytes : bytes) :
  types.GetChannel (ChannelKeeper (wired_keeper m)) (world ctxA)
    sourcePort sourceChannel = Some sourceChannelEnd ->
  types.GetNextSequenceSend (ChannelKeeper (wired_keeper m)) (world ctxA)
    sourcePort sourceChannel = Some sequence ->
  types.GetCapability (ScopedKeeper (wired_keeper m)) (world ctxA)
    (wired_ChannelCapabilityPath m sourcePort sourceChannel)
    = Some channelCap ->
  wired_GetBytes m data = inl packetBytes ->
  let packet :=
    NewPacket packetBytes sequence sourcePort sourceChannel
      (GetPortID (GetCounterparty sourceChannelEnd))
      (GetChannelID (GetCounterparty sourceChannelEnd))
      timeoutHeight timeoutTimestamp in
  let sent :=
    wired_Transmit m ctxA data sourcePort sourceChannel
      timeoutHeight timeoutTimestamp in
  let timedout := OnTimeoutIbcPostPacket (fst sent) packet data in
  (world (fst sent), snd sent) =
    types.SendPacket (ChannelKeeper (wired_keeper m)) (world ctxA)
      channelCap packet /\
  snd timedout = None /\
  created (timedoutPosts ctxA) (timedoutPosts (fst timedout)) =
    [(nextId (timedoutPosts ctxA),
      {| TimedoutPost_Title := Title data;
         TimedoutPost_Creator := Creator data;
         TimedoutPost_Chain :=
           GetPortID (GetCounterparty sourceChannelEnd) +s "-"
             +s GetChannelID (GetCounterparty sourceChannelEnd) |})] /\
  sentPosts (fst timedout) = sentPosts ctxA.
Proof.
  intros Hch Hseq Hcap Hbz packet sent timedout.
  assert (Hsent :
    (world (fst sent), snd sent) =
      types.SendPacket (ChannelKeeper (wired_keeper m)) (world ctxA)
        channelCap packet /\
    sentPosts (fst sent) = sentPosts ctxA /\
    timedoutPosts (fst sent) = timedoutPosts ctxA).
  { subst sent packet. unfold wired_Transmit, TransmitIbcPostPacket.
    rewrite Hch, Hseq, Hcap, Hbz.
    destruct (types.SendPacket _ _ _ _) as [w' [err |]]; now repeat split. }
  destruct Hsent as (Hsend & Hs & Ht).
  split; [exact Hsend |].
  subst timedout. unfold OnTimeoutIbcPostPacket, AppendTimedoutPost. simpl.
  split; [reflexivity |].
  split; [| exact Hs].
  apply created_app. simpl. now rewrite Ht.
Qed.

End EndToEnd.

(** Alice's post, sent on blog/channel-0, becomes post 3 on the other
    chain and is acknowledged as such. *)
Lemma post_sent_received_acknowledged_witness :
  Fake.GetBytes Fake.alice = inl (list_byte_of_string "alice/T/C") /\
  ValidateBasic Fake.ValidationError Fake.alice = None /\
  Fake.UnmarshalJSON Chains.result_3 =
    inl (fst (snd (OnRecvIbcPostPacket Fake.ValidationError Chains.ctxB
                     Chains.packet_alice Fake.alice))) /\
  created (posts Chains.ctxB)
    (posts (fst (OnRecvIbcPostPacket Fake.ValidationError Chains.ctxB
                   Chains.packet_alice Fake.alice))) =
    [(3%N, {| Post_Creator := "blog-channel-0-alice";
              Post_Title := "T"; Post_Content := "C" |})] /\
  created (sentPosts Fake.ctx0)
    (sentPosts
       (fst (OnAcknowledgementIbcPostPacket Fake.UnmarshalJSON
               (fst (wired_Transmit Chains.wiring Fake.ctx0 Fake.alice
                       "blog" "channel-0" Fake.height 9))
               Chains.packet_alice Fake.alice
               {| Response := Acknowledgement_Result Chains.result_3 |}))) =
    [(0%N, {| SentPost_Creator := "alice"; SentPost_PostID := "3";
              SentPost_Title := "T"; SentPost_Chain := "blog-channel-7" |})].
Proof.
  do 3 (split; [reflexivity |]).
  destruct (@post_sent_received_acknowledged Fake.World Fake.World
              Chains.wiring Fake.ValidationError Fake.ctx0 Chains.ctxB
              Fake.alice "blog" "channel-0" Fake.height 9%N
              _ _ _ _ Chains.result_3
              eq_refl eq_refl eq_refl eq_refl eq_refl eq_refl)
    as (_ & _ & Hpost & _ & Hsent).
  split; [exact Hpost | exact Hsent].
Defined.

(** Alice's post, sent on blog/channel-0 and timed out. *)
Lemma post_sent_timed_out_witness :
  Fake.GetBytes Fake.alice = inl (list_byte_of_string "alice/T/C") /\
  created (timedoutPosts Fake.ctx0)
    (timedoutPosts
       (fst (OnTimeoutIbcPostPacket
               (fst (wired_Transmit Chains.wiring Fake.ctx0 Fake.alice
                       "blog" "channel-0" Fake.height 9))
               Chains.packet_alice Fake.alice))) =
    [(0%N, {| TimedoutPost_Title := "T"; TimedoutPost_Creator := "alice";
              TimedoutPost_Chain := "blog-channel-7" |})].
Proof.
  split; [reflexivity |].
  destruct (@post_sent_timed_out Fake.World Chains.wiring Fake.ctx0
              Fake.alice "blog" "channel-0" Fake.height 9%N
              _ _ _ _ eq_refl eq_refl eq_refl eq_refl)
    as (_ & _ & Hcreated & _).
  exact Hcreated.
Defined.

(** A day of callbacks of all four kinds on an empty chain: two posts,
    one sent post and two timed-out posts. *)
Example busy_day_stores :
  Store_keys (posts (handle_all Chains.wiring Fake.ctx0 Chains.busy_day))
    = [0%N; 1%N] /\
  Store_keys (sentPosts (handle_all Chains.wiring Fake.ctx0 Chains.busy_day))
    = [0%N] /\
  Store_keys
    (timedoutPosts (handle_all Chains.wiring Fake.ctx0 Chains.busy_day))
    = [0%N; 1%N] /\
  List.length (Fake.outbox
                 (world (handle_all Chains.wiring Fake.ctx0
                           Chains.busy_day))) = 1.
Proof. repeat split. Qed.
